(** * Background detection hook and worker notification: a shallow embedding

    Sources embedded here:
    - [useBackgroundDetection] (the React hook with the voice, motion and
      camera channels and the start/stop supervisor);
    - the [message] listener and [handleEmergencyAlert] of the service
      worker [public/sw.js];
    - of the pages around the hook: the contact manager, the settings page,
      the emergency button, and the method count, the auto-start effect and
      the status of the dashboard.

    Conventions of the embedding:
    - JavaScript numbers are IEEE-754 binary64 values, here the kernel's
      primitive [float]; [Date.now()] yields an integral number of
      milliseconds and is kept in [Z];
    - JavaScript strings are modelled by [string]; [toLowerCase] is the
      function of the host (a field of [Capabilities]), known on ASCII text
      only, where it lowers the letters A to Z;
    - the count a worker message carries is an integer, kept in [Z]; a
      template literal prints it in decimal when it is a safe integer (at
      most 2^53 in absolute value), which is as far as the statements go;
    - [console.log] and [console.error] are not observable in the model;
    - an [async] function is a tree of synchronous steps separated by the
      host promises it awaits ([Async] below); [await] of a value that is
      already settled only yields to the micro-task queue, where no other
      handler of the page can run, so it is not a suspension point here. *)

From Stdlib Require Import ZArith List String Ascii Bool Lia PeanoNat.
From Stdlib Require Import Floats DecimalString.
From Stdlib Require DecimalPos DecimalZ.
Import ListNotations.

Set Implicit Arguments.

(* ------------------------------------------------------------------ *)
(** ** JavaScript strings *)

Module JsString.

Definition lower_ascii (c : ascii) : ascii :=
  let n := nat_of_ascii c in
  if (65 <=? n)%nat && (n <=? 90)%nat then ascii_of_nat (n + 32) else c.

(** What [String.prototype.toLowerCase] does to ASCII text: the letters A to
    Z are lowered and nothing else changes. On other text the function of
    the host is not this one (it is Unicode-aware and looks at the context
    of a letter); the handlers take the host's function as it comes. *)
Fixpoint asciiLowerCase (s : string) : string :=
  match s with
  | EmptyString => EmptyString
  | String c rest => String (lower_ascii c) (asciiLowerCase rest)
  end.

Definition upper_ascii (c : ascii) : ascii :=
  let n := nat_of_ascii c in
  if (97 <=? n)%nat && (n <=? 122)%nat then ascii_of_nat (n - 32) else c.

(** The same for [String.prototype.toUpperCase]. *)
Fixpoint asciiUpperCase (s : string) : string :=
  match s with
  | EmptyString => EmptyString
  | String c rest => String (upper_ascii c) (asciiUpperCase rest)
  end.

(** Text all of whose characters are ASCII. *)
Fixpoint isAscii (s : string) : bool :=
  match s with
  | EmptyString => true
  | String c rest => (nat_of_ascii c <? 128)%nat && isAscii rest
  end.

(** [Array.prototype.join('')] *)
Fixpoint join (parts : list string) : string :=
  match parts with
  | [] => EmptyString
  | p :: rest => append p (join rest)
  end.

(** [hay.startsWith(needle)] *)
Fixpoint startsWith (hay needle : string) {struct needle} : bool :=
  match needle with
  | EmptyString => true
  | String a n' =>
      match hay with
      | EmptyString => false
      | String b h' => Ascii.eqb a b && startsWith h' n'
      end
  end.

(** [hay.includes(needle)] *)
Fixpoint includes (hay needle : string) : bool :=
  startsWith hay needle ||
  match hay with
  | EmptyString => false
  | String _ rest => includes rest needle
  end.

(** The mathematical reading of "contains as a substring". *)
Definition Substring (needle hay : string) : Prop :=
  exists pre post, hay = append pre (append needle post).

End JsString.

(* ------------------------------------------------------------------ *)
(** ** Data model of the hook *)

Record DetectionSettings : Type := {
  voiceEnabled : bool;
  blinkEnabled : bool;
  gestureEnabled : bool;
  motionEnabled : bool;
  voiceSensitivity : float;
  motionSensitivity : float;
  emergencyKeywords : list string
}.

(** The [detectionStatus] state object. *)
Record DetectionStatus : Type := {
  voice : bool;
  motion : bool;
  camera : bool
}.

Definition allFalse : DetectionStatus :=
  {| voice := false; motion := false; camera := false |}.

(** What the functions of one render close over: [isBackgroundActive] is a
    [const] bound by [useState] each time the hook body runs, and [settings]
    is an argument of the hook.  A handler created by some render keeps
    reading that render's values, whatever [setIsBackgroundActive] is called
    with afterwards. *)
Record Render : Type := {
  isBackgroundActive : bool;
  settings : option DetectionSettings
}.

(** [settings?.voiceEnabled] and friends: [undefined] (falsy) on [null]. *)
Definition optFlag (f : DetectionSettings -> bool) (env : Render) : bool :=
  match settings env with
  | Some s => f s
  | None => false
  end.

(** *** Speech recognition objects *)

Record SpeechRecognitionAlternative : Type := {
  transcript : string;
  confidence : float
}.

(** A result always carries its best alternative, [result[0]]; the
    interface types [result[index]] as an alternative. *)
Record SpeechRecognitionResult : Type := {
  item0 : SpeechRecognitionAlternative;
  otherItems : list SpeechRecognitionAlternative
}.

Record SpeechRecognitionEvent : Type := {
  results : list SpeechRecognitionResult
}.

(** A recognition object together with the environment its three handlers
    ([onresult], [onerror], [onend]) close over. *)
Record Recognition : Type := {
  continuous : bool;
  interimResults : bool;
  lang : string;
  rec_env : Render;
  rec_started : bool
}.

(** *** Motion objects *)

(** An axis of [event.acceleration]: a number, [null], or missing. *)
Inductive JsAxis : Type :=
| AxisUndefined
| AxisNull
| AxisNumber (v : float).

Record Acceleration : Type := {
  acc_x : JsAxis;
  acc_y : JsAxis;
  acc_z : JsAxis
}.

Record DeviceMotionEvent : Type := {
  acceleration : option Acceleration
}.

(** The [handleMotion] closure: [lastShakeTime] is its mutable [let],
    [shakeThreshold] its [const]; [attached] tells whether the window still
    lists it for [devicemotion]. *)
Record MotionHandler : Type := {
  lastShakeTime : Z;
  shakeThreshold : float;
  attached : bool
}.

(** *** Camera objects: a stream is its tracks, [true] for a live track. *)
Record MediaStream : Type := {
  tracks : list bool
}.

(** *** Toasts, timers and host calls *)

Inductive ToastVariant : Type := VariantDefault | VariantDestructive.

Record Toast : Type := {
  title : string;
  description : string;
  variant : ToastVariant
}.

(** [setTimeout(() => { try { recognition.start() } catch ... }, delay)] *)
Record Timer : Type := {
  delay : Z;
  restarts : nat
}.

Inductive HostCall : Type :=
| CallRecognitionStart (id : nat)
| CallRecognitionStop (id : nat)
| CallAddEventListener (id : nat)
| CallRemoveEventListener (id : nat)
| CallTrackStop (stream : nat).

(** What the host environment offers, as the code probes it. *)
Record Capabilities : Type := {
  (** ['webkitSpeechRecognition' in window || 'SpeechRecognition' in window] *)
  speechRecognitionInWindow : bool;
  (** [recognition.start()] throws *)
  recognitionStartThrows : bool;
  (** [typeof DeviceMotionEvent !== 'undefined' &&
       'requestPermission' in DeviceMotionEvent] *)
  motionRequestPermission : bool;
  (** [navigator.mediaDevices] exists *)
  mediaDevices : bool;
  (** ['Notification' in window && Notification.permission === 'default'] *)
  notificationDefault : bool;
  (** [String.prototype.toLowerCase], as the host implements it *)
  toLowerCase : string -> string
}.

(** The hook instance and the host objects it has created. *)
Record World : Type := {
  st_isBackgroundActive : bool;
  st_detectionStatus : DetectionStatus;
  speechRecognitionRef : option nat;
  motionListenerRef : option nat;
  videoStreamRef : option nat;
  recognitions : list Recognition;
  motionHandlers : list MotionHandler;
  streams : list MediaStream;
  timers : list Timer;
  caps : Capabilities;
  toasts : list Toast;
  emergencyCalls : nat;
  calls : list HostCall
}.

(** The hook just mounted: [useState(false)], all-false status, [useRef(null)]
    three times, nothing created yet. *)
Definition mount (c : Capabilities) : World :=
  {| st_isBackgroundActive := false; st_detectionStatus := allFalse;
     speechRecognitionRef := None; motionListenerRef := None;
     videoStreamRef := None;
     recognitions := []; motionHandlers := []; streams := []; timers := [];
     caps := c; toasts := []; emergencyCalls := 0; calls := [] |}.

(** The closure environment of the render that sees world [w]. *)
Definition render (props : option DetectionSettings) (w : World) : Render :=
  {| isBackgroundActive := st_isBackgroundActive w; settings := props |}.

(** Field updates of the world. *)

Definition set_st_isBackgroundActive (v : bool) (w : World) : World :=
  {| st_isBackgroundActive := v; st_detectionStatus := st_detectionStatus w;
     speechRecognitionRef := speechRecognitionRef w;
     motionListenerRef := motionListenerRef w;
     videoStreamRef := videoStreamRef w; recognitions := recognitions w;
     motionHandlers := motionHandlers w; streams := streams w;
     timers := timers w; caps := caps w; toasts := toasts w;
     emergencyCalls := emergencyCalls w; calls := calls w |}.

Definition set_st_detectionStatus (v : DetectionStatus) (w : World) : World :=
  {| st_isBackgroundActive := st_isBackgroundActive w;
     st_detectionStatus := v;
     speechRecognitionRef := speechRecognitionRef w;
     motionListenerRef := motionListenerRef w;
     videoStreamRef := videoStreamRef w; recognitions := recognitions w;
     motionHandlers := motionHandlers w; streams := streams w;
     timers := timers w; caps := caps w; toasts := toasts w;
     emergencyCalls := emergencyCalls w; calls := calls w |}.

Definition set_speechRecognitionRef (v : option nat) (w : World) : World :=
  {| st_isBackgroundActive := st_isBackgroundActive w;
     st_detectionStatus := st_detectionStatus w; speechRecognitionRef := v;
     motionListenerRef := motionListenerRef w;
     videoStreamRef := videoStreamRef w; recognitions := recognitions w;
     motionHandlers := motionHandlers w; streams := streams w;
     timers := timers w; caps := caps w; toasts := toasts w;
     emergencyCalls := emergencyCalls w; calls := calls w |}.

Definition set_motionListenerRef (v : option nat) (w : World) : World :=
  {| st_isBackgroundActive := st_isBackgroundActive w;
     st_detectionStatus := st_detectionStatus w;
     speechRecognitionRef := speechRecognitionRef w; motionListenerRef := v;
     videoStreamRef := videoStreamRef w; recognitions := recognitions w;
     motionHandlers := motionHandlers w; streams := streams w;
     timers := timers w; caps := caps w; toasts := toasts w;
     emergencyCalls := emergencyCalls w; calls := calls w |}.

Definition set_videoStreamRef (v : option nat) (w : World) : World :=
  {| st_isBackgroundActive := st_isBackgroundActive w;
     st_detectionStatus := st_detectionStatus w;
     speechRecognitionRef := speechRecognitionRef w;
     motionListenerRef := motionListenerRef w; videoStreamRef := v;
     recognitions := recognitions w; motionHandlers := motionHandlers w;
     streams := streams w; timers := timers w; caps := caps w;
     toasts := toasts w; emergencyCalls := emergencyCalls w;
     calls := calls w |}.

Definition set_recognitions (v : list Recognition) (w : World) : World :=
  {| st_isBackgroundActive := st_isBackgroundActive w;
     st_detectionStatus := st_detectionStatus w;
     speechRecognitionRef := speechRecognitionRef w;
     motionListenerRef := motionListenerRef w;
     videoStreamRef := videoStreamRef w; recognitions := v;
     motionHandlers := motionHandlers w; streams := streams w;
     timers := timers w; caps := caps w; toasts := toasts w;
     emergencyCalls := emergencyCalls w; calls := calls w |}.

Definition set_motionHandlers (v : list MotionHandler) (w : World) : World :=
  {| st_isBackgroundActive := st_isBackgroundActive w;
     st_detectionStatus := st_detectionStatus w;
     speechRecognitionRef := speechRecognitionRef w;
     motionListenerRef := motionListenerRef w;
     videoStreamRef := videoStreamRef w; recognitions := recognitions w;
     motionHandlers := v; streams := streams w; timers := timers w;
     caps := caps w; toasts := toasts w; emergencyCalls := emergencyCalls w;
     calls := calls w |}.

Definition set_streams (v : list MediaStream) (w : World) : World :=
  {| st_isBackgroundActive := st_isBackgroundActive w;
     st_detectionStatus := st_detectionStatus w;
     speechRecognitionRef := speechRecognitionRef w;
     motionListenerRef := motionListenerRef w;
     videoStreamRef := videoStreamRef w; recognitions := recognitions w;
     motionHandlers := motionHandlers w; streams := v; timers := timers w;
     caps := caps w; toasts := toasts w; emergencyCalls := emergencyCalls w;
     calls := calls w |}.

Definition set_timers (v : list Timer) (w : World) : World :=
  {| st_isBackgroundActive := st_isBackgroundActive w;
     st_detectionStatus := st_detectionStatus w;
     speechRecognitionRef := speechRecognitionRef w;
     motionListenerRef := motionListenerRef w;
     videoStreamRef := videoStreamRef w; recognitions := recognitions w;
     motionHandlers := motionHandlers w; streams := streams w; timers := v;
     caps := caps w; toasts := toasts w; emergencyCalls := emergencyCalls w;
     calls := calls w |}.

Definition set_toasts (v : list Toast) (w : World) : World :=
  {| st_isBackgroundActive := st_isBackgroundActive w;
     st_detectionStatus := st_detectionStatus w;
     speechRecognitionRef := speechRecognitionRef w;
     motionListenerRef := motionListenerRef w;
     videoStreamRef := videoStreamRef w; recognitions := recognitions w;
     motionHandlers := motionHandlers w; streams := streams w;
     timers := timers w; caps := caps w; toasts := v;
     emergencyCalls := emergencyCalls w; calls := calls w |}.

Definition set_emergencyCalls (v : nat) (w : World) : World :=
  {| st_isBackgroundActive := st_isBackgroundActive w;
     st_detectionStatus := st_detectionStatus w;
     speechRecognitionRef := speechRecognitionRef w;
     motionListenerRef := motionListenerRef w;
     videoStreamRef := videoStreamRef w; recognitions := recognitions w;
     motionHandlers := motionHandlers w; streams := streams w;
     timers := timers w; caps := caps w; toasts := toasts w;
     emergencyCalls := v; calls := calls w |}.

Definition set_calls (v : list HostCall) (w : World) : World :=
  {| st_isBackgroundActive := st_isBackgroundActive w;
     st_detectionStatus := st_detectionStatus w;
     speechRecognitionRef := speechRecognitionRef w;
     motionListenerRef := motionListenerRef w;
     videoStreamRef := videoStreamRef w; recognitions := recognitions w;
     motionHandlers := motionHandlers w; streams := streams w;
     timers := timers w; caps := caps w; toasts := toasts w;
     emergencyCalls := emergencyCalls w; calls := v |}.

(* ------------------------------------------------------------------ *)
(** ** Host operations on the world *)

Fixpoint update_nth {A : Type} (i : nat) (f : A -> A) (l : list A) : list A :=
  match l, i with
  | [], _ => []
  | x :: rest, O => f x :: rest
  | x :: rest, S j => x :: update_nth j f rest
  end.

Definition toast (t : Toast) (w : World) : World :=
  set_toasts (toasts w ++ [t]) w.

(** The [onEmergencyDetected] callback given to the hook. *)
Definition onEmergencyDetected (w : World) : World :=
  set_emergencyCalls (S (emergencyCalls w)) w.

Definition logCall (c : HostCall) (w : World) : World :=
  set_calls (calls w ++ [c]) w.

Definition markStarted (b : bool) (r : Recognition) : Recognition :=
  {| continuous := continuous r; interimResults := interimResults r;
     lang := lang r; rec_env := rec_env r; rec_started := b |}.

(** [recognition.start()] on a recognition that is not running. *)
Definition recognition_start (id : nat) (w : World) : World :=
  logCall (CallRecognitionStart id)
    (set_recognitions (update_nth id (markStarted true) (recognitions w)) w).

(** [recognition.stop()] *)
Definition recognition_stop (id : nat) (w : World) : World :=
  logCall (CallRecognitionStop id)
    (set_recognitions (update_nth id (markStarted false) (recognitions w)) w).

(** [new SpeechRecognition()] with the three attributes and the three
    handlers assigned; the handlers close over [env]. *)
Definition newRecognition (env : Render) : Recognition :=
  {| continuous := true; interimResults := true; lang := "en-US";
     rec_env := env; rec_started := false |}.

(** The object [new SpeechRecognition()] returns joins the host's objects. *)
Definition pushRecognition (r : Recognition) (w : World) : World :=
  set_recognitions (recognitions w ++ [r]) w.

(** The stream a fulfilled [getUserMedia] hands over. *)
Definition pushStream (s : MediaStream) (w : World) : World :=
  set_streams (streams w ++ [s]) w.

Definition detach (h : MotionHandler) : MotionHandler :=
  {| lastShakeTime := lastShakeTime h; shakeThreshold := shakeThreshold h;
     attached := false |}.

(** [window.addEventListener('devicemotion', handleMotion)] with a fresh
    closure: a function object never registered before. *)
Definition addEventListener (h : MotionHandler) (w : World) : World :=
  logCall (CallAddEventListener (List.length (motionHandlers w)))
    (set_motionHandlers (motionHandlers w ++ [h]) w).

(** [window.removeEventListener('devicemotion', handler)] *)
Definition removeEventListener (id : nat) (w : World) : World :=
  logCall (CallRemoveEventListener id)
    (set_motionHandlers (update_nth id detach (motionHandlers w)) w).

Definition stopAll (s : MediaStream) : MediaStream :=
  {| tracks := map (fun _ => false) (tracks s) |}.

(** [stream.getTracks().forEach(track => track.stop())] *)
Definition stopTracks (id : nat) (w : World) : World :=
  let n := match nth_error (streams w) id with
           | Some s => List.length (tracks s)
           | None => 0
           end in
  set_calls (calls w ++ repeat (CallTrackStop id) n)
    (set_streams (update_nth id stopAll (streams w)) w).

(* ------------------------------------------------------------------ *)
(** ** Asynchronous functions *)

Inductive PermissionState : Type := Granted | Denied.

(** A thrown or rejected value: [error instanceof Error] and [error.name]. *)
Record JsError : Type := {
  instanceofError : bool;
  err_name : string
}.

Inductive Settled (A : Type) : Type :=
| Fulfilled (a : A)
| Rejected (e : JsError).
Arguments Rejected {A} e.

(** The host promises the hook awaits. *)
Inductive Request : Type :=
| RequestMotionPermission        (* DeviceMotionEvent.requestPermission() *)
| GetUserMedia                   (* navigator.mediaDevices.getUserMedia(..) *)
| RequestNotificationPermission. (* Notification.requestPermission() *)

(** How each promise settles.  A fulfilled [getUserMedia] gives a stream,
    described by its number of (live) tracks; [Notification.requestPermission]
    always fulfils. *)
Definition Answer (r : Request) : Type :=
  match r with
  | RequestMotionPermission => Settled PermissionState
  | GetUserMedia => Settled nat
  | RequestNotificationPermission => PermissionState
  end.

Inductive Async (A : Type) : Type :=
| Ret (a : A)
| Get (k : World -> Async A)
| Modify (f : World -> World) (k : Async A)
| Await (r : Request) (k : Answer r -> Async A).

Fixpoint bind {A B : Type} (m : Async A) (f : A -> Async B) : Async B :=
  match m with
  | Ret a => f a
  | Get k => Get (fun w => bind (k w) f)
  | Modify g k => Modify g (bind k f)
  | Await r k => Await r (fun ans => bind (k ans) f)
  end.

Definition get : Async World := Get (fun w => Ret w).
Definition act (f : World -> World) : Async unit := Modify f (Ret tt).
Definition await (r : Request) : Async (Answer r) := Await r (fun ans => Ret ans).

Declare Scope async_scope.
Delimit Scope async_scope with async.
Notation "x <- m ;; k" := (bind m (fun x => k))
  (at level 100, m at next level, right associativity) : async_scope.
Notation "m ;; k" := (bind m (fun _ => k))
  (at level 100, right associativity) : async_scope.
Open Scope async_scope.

(** Where a call stands when the event loop gets control back. *)
Inductive Paused (A : Type) : Type :=
| Done (a : A)
| Blocked (r : Request) (k : Answer r -> Async A).

(** Run the synchronous steps up to the next pending promise. *)
Fixpoint run {A : Type} (p : Async A) (w : World) : World * Paused A :=
  match p with
  | Ret a => (w, Done a)
  | Get k => run (k w) w
  | Modify f k => run k (f w)
  | Await r k => (w, Blocked r k)
  end.

(** A host that settles every promise at once, with no other event between
    the request and its settlement. *)
Definition Oracle : Type := forall r : Request, Answer r.

Fixpoint complete {A : Type} (o : Oracle) (p : Async A) (w : World) : World * A :=
  match p with
  | Ret a => (w, a)
  | Get k => complete o (k w) w
  | Modify f k => complete o k (f w)
  | Await r k => complete o (k (o r)) w
  end.

(** A host described by how it settles the two permission-gated promises. *)
Definition host (motionAnswer : Settled PermissionState)
    (cameraAnswer : Settled nat) : Oracle :=
  fun r =>
    match r with
    | RequestMotionPermission => motionAnswer
    | GetUserMedia => cameraAnswer
    | RequestNotificationPermission => Granted
    end.

(** The settlement of the pending promise, if any, reaches the call. *)
Definition settle {A : Type} (o : Oracle) (p : Paused A) (w : World)
    : World * Paused A :=
  match p with
  | Done a => (w, Done a)
  | Blocked r k => run (k (o r)) w
  end.


(* ------------------------------------------------------------------ *)
(** ** The voice channel *)

(** The lower-cased concatenation of the best transcript of each result,
    [lower] being the [toLowerCase] of the host. *)
Definition eventTranscript (lower : string -> string)
    (event : SpeechRecognitionEvent) : string :=
  lower (JsString.join (map (fun result => transcript (item0 result)) (results event))).

Definition hasEmergencyKeyword (lower : string -> string)
    (keywords : list string) (t : string) : bool :=
  existsb (fun keyword => JsString.includes t (lower keyword)) keywords.

(** [recognition.onresult], for the settings the handler closes over. *)
Definition onresult (s : DetectionSettings) (event : SpeechRecognitionEvent)
    (w : World) : World :=
  let lower := toLowerCase (caps w) in
  if hasEmergencyKeyword lower (emergencyKeywords s) (eventTranscript lower event)
  then onEmergencyDetected w
  else w.

Definition microphoneDenied : Toast :=
  {| title := "Microphone Access Denied";
     description := "Please enable microphone access for voice detection";
     variant := VariantDestructive |}.

(** [recognition.onerror] *)
Definition onerror (error : string) (w : World) : World :=
  if String.eqb error "not-allowed" then toast microphoneDenied w else w.

(** [recognition.onend], for the environment [env] the handler closes over
    and the recognition [id] it restarts. *)
Definition onend (env : Render) (id : nat) (w : World) : World :=
  if isBackgroundActive env && optFlag voiceEnabled env
  then set_timers (timers w ++ [{| delay := 1000; restarts := id |}]) w
  else w.

(** The body of the timer: [recognition.start()] throws on a recognition
    that is already started, and the [catch] only logs. *)
Definition restartRecognition (id : nat) (w : World) : World :=
  match nth_error (recognitions w) id with
  | Some r => if rec_started r then w else recognition_start id w
  | None => w
  end.

Definition startVoiceDetection (env : Render) : Async bool :=
  w <- get ;;
  if negb (optFlag voiceEnabled env) || negb (speechRecognitionInWindow (caps w))
  then Ret false
  else
    let id := List.length (recognitions w) in
    act (pushRecognition (newRecognition env)) ;;
    if recognitionStartThrows (caps w)
    then Ret false                                       (* catch *)
    else
      act (recognition_start id) ;;
      act (set_speechRecognitionRef (Some id)) ;;
      Ret true.

(** *** Events the speech engine delivers to a recognition *)

Definition deliverResult (id : nat) (event : SpeechRecognitionEvent)
    (w : World) : World :=
  match nth_error (recognitions w) id with
  | Some r =>
      match settings (rec_env r) with
      | Some s => onresult s event w
      | None => w                  (* [settings.emergencyKeywords] throws *)
      end
  | None => w
  end.

(** The engine of recognition [id] has ended: the recognition is no longer
    started and its [onend] handler runs. *)
Definition deliverEnd (id : nat) (w : World) : World :=
  match nth_error (recognitions w) id with
  | Some r =>
      onend (rec_env r) id
        (set_recognitions (update_nth id (markStarted false) (recognitions w)) w)
  | None => w
  end.

(** The oldest pending timer fires. *)
Definition timerFires (w : World) : World :=
  match timers w with
  | [] => w
  | t :: rest => restartRecognition (restarts t) (set_timers rest w)
  end.

(* ------------------------------------------------------------------ *)
(** ** The motion channel *)

Open Scope float_scope.

(** [const { x = 0, y = 0, z = 0 } = acceleration]: the default replaces
    [undefined] only. *)
Definition withDefault (a : JsAxis) : JsAxis :=
  match a with
  | AxisUndefined => AxisNumber 0
  | _ => a
  end.

(** ToNumber, as applied by [*]. *)
Definition toNumber (a : JsAxis) : float :=
  match a with
  | AxisUndefined => nan
  | AxisNull => 0
  | AxisNumber v => v
  end.

Definition totalAcceleration (a : Acceleration) : float :=
  let x := toNumber (withDefault (acc_x a)) in
  let y := toNumber (withDefault (acc_y a)) in
  let z := toNumber (withDefault (acc_z a)) in
  PrimFloat.sqrt (x * x + y * y + z * z).

Definition thresholdOf (s : DetectionSettings) : float :=
  (100 - motionSensitivity s) / 10.

(** [handleMotion]: the closure after the event, and whether it called
    [onEmergencyDetected]. [now] is what [Date.now()] returns. *)
Definition handleMotion (h : MotionHandler) (event : DeviceMotionEvent)
    (now : Z) : MotionHandler * bool :=
  match acceleration event with
  | None => (h, false)
  | Some a =>
      if PrimFloat.ltb (shakeThreshold h) (totalAcceleration a)
      then
        if (now - lastShakeTime h >? 2000)%Z
        then ({| lastShakeTime := now; shakeThreshold := shakeThreshold h;
                 attached := attached h |}, true)
        else (h, false)
      else (h, false)
  end.

Close Scope float_scope.

Definition motionDenied : Toast :=
  {| title := "Motion Access Denied";
     description := "Please enable device motion access for shake detection";
     variant := VariantDestructive |}.

(** The part of [startMotionDetection] after the permission check. *)
Definition attachMotion (env : Render) : Async bool :=
  match settings env with
  | None => Ret false              (* [settings.motionSensitivity] throws *)
  | Some s =>
      w <- get ;;
      let id := List.length (motionHandlers w) in
      act (addEventListener {| lastShakeTime := 0;
                               shakeThreshold := thresholdOf s;
                               attached := true |}) ;;
      act (set_motionListenerRef (Some id)) ;;
      Ret true
  end.

Definition startMotionDetection (env : Render) : Async bool :=
  if negb (optFlag motionEnabled env) then Ret false
  else
    w <- get ;;
    if motionRequestPermission (caps w)
    then
      permission <- await RequestMotionPermission ;;
      match permission with
      | Fulfilled Granted => attachMotion env
      | Fulfilled Denied => act (toast motionDenied) ;; Ret false
      | Rejected _ => Ret false                          (* catch *)
      end
    else attachMotion env.

(** A [devicemotion] event reaches every handler still attached. *)
Fixpoint dispatchMotion (event : DeviceMotionEvent) (now : Z)
    (hs : list MotionHandler) : list MotionHandler * nat :=
  match hs with
  | [] => ([], 0)
  | h :: rest =>
      let '(rest', n) := dispatchMotion event now rest in
      if attached h
      then let '(h', fired) := handleMotion h event now in
           (h' :: rest', if fired then S n else n)
      else (h :: rest', n)
  end.

Definition deliverMotion (event : DeviceMotionEvent) (now : Z) (w : World) : World :=
  let '(hs, n) := dispatchMotion event now (motionHandlers w) in
  set_emergencyCalls (n + emergencyCalls w) (set_motionHandlers hs w).

(* ------------------------------------------------------------------ *)
(** ** The camera channel *)

Definition cameraDenied : Toast :=
  {| title := "Camera Access Denied";
     description := "Please enable camera access for gesture and blink detection";
     variant := VariantDestructive |}.

Definition liveStream (n : nat) : MediaStream := {| tracks := repeat true n |}.

Definition startCameraDetection (env : Render) : Async bool :=
  if negb (optFlag blinkEnabled env) && negb (optFlag gestureEnabled env)
  then Ret false
  else
    w <- get ;;
    if negb (mediaDevices (caps w))
    then Ret false           (* TypeError on [navigator.mediaDevices], caught *)
    else
      stream <- await GetUserMedia ;;
      match stream with
      | Fulfilled n =>
          w <- get ;;
          let id := List.length (streams w) in
          act (pushStream (liveStream n)) ;;
          act (set_videoStreamRef (Some id)) ;;
          Ret true
      | Rejected error =>
          if instanceofError error && String.eqb (err_name error) "NotAllowedError"
          then act (toast cameraDenied) ;; Ret false
          else Ret false
      end.

(* ------------------------------------------------------------------ *)
(** ** The supervisor *)

Definition configurationRequired : Toast :=
  {| title := "Configuration Required";
     description := "Please configure detection settings first";
     variant := VariantDestructive |}.

Definition detectionActive : Toast :=
  {| title := "Background Detection Active";
     description :=
       "Zero Touch SOS is now monitoring for emergencies in the background";
     variant := VariantDefault |}.

Definition detectionStopped : Toast :=
  {| title := "Background Detection Stopped";
     description := "Emergency monitoring has been deactivated";
     variant := VariantDefault |}.

Definition startBackgroundDetection (env : Render) : Async unit :=
  match settings env with
  | None => act (toast configurationRequired)
  | Some s =>
      act (set_st_isBackgroundActive true) ;;
      v <- (if voiceEnabled s then startVoiceDetection env else Ret false) ;;
      m <- (if motionEnabled s then startMotionDetection env else Ret false) ;;
      c <- (if blinkEnabled s || gestureEnabled s
            then startCameraDetection env else Ret false) ;;
      act (set_st_detectionStatus {| voice := v; motion := m; camera := c |}) ;;
      w <- get ;;
      (if notificationDefault (caps w)
       then _ <- await RequestNotificationPermission ;; Ret tt
       else Ret tt) ;;
      act (toast detectionActive)
  end.

Definition stopVoice (w : World) : World :=
  match speechRecognitionRef w with
  | Some id => set_speechRecognitionRef None (recognition_stop id w)
  | None => w
  end.

Definition stopMotion (w : World) : World :=
  match motionListenerRef w with
  | Some id => set_motionListenerRef None (removeEventListener id w)
  | None => w
  end.

Definition stopCamera (w : World) : World :=
  match videoStreamRef w with
  | Some id => set_videoStreamRef None (stopTracks id w)
  | None => w
  end.

Definition stopBackgroundDetection (w : World) : World :=
  toast detectionStopped
    (set_st_detectionStatus allFalse
       (stopCamera (stopMotion (stopVoice (set_st_isBackgroundActive false w))))).

(* ------------------------------------------------------------------ *)
(** ** The service worker ([public/sw.js]) *)

Module Worker.

Record Payload : Type := {
  contactCount : Z
}.

(** [event.data], when it is truthy. *)
Record MessageData : Type := {
  msg_type : string;
  payload : option Payload
}.

Record MessageEvent : Type := {
  data : option MessageData
}.

Record NotificationAction : Type := {
  action : string;
  action_title : string
}.

Record Notification : Type := {
  n_title : string;
  body : string;
  icon : string;
  badge : string;
  vibrate : list Z;
  requireInteraction : bool;
  actions : list NotificationAction
}.

(** The rendering of an integral number in a template literal, for a safe
    integer (at most 2^53 in absolute value): its decimal digits. It is the
    rendering of [Date.now()] too. Larger numbers are rounded, and printed
    with an exponent from 10^21 on, which this function does not follow. *)
Definition numberToString (n : Z) : string :=
  NilZero.string_of_int (Z.to_int n).

Definition alertTitle : string := "🚨 Emergency Alert Sent".

Definition alertBody (n : Z) : string :=
  append "Alert sent to " (append (numberToString n) " emergency contacts").

(** [registration.showNotification]: the promise rejects, and nothing is
    shown, unless the notification permission of the origin is granted. *)
Definition showNotification (granted : bool) (n : Notification)
    (shown : list Notification) : list Notification :=
  if granted then shown ++ [n] else shown.

(** [handleEmergencyAlert]: the notifications shown so far are the state,
    [granted] tells whether the notification permission is. Reading
    [contactCount] of a missing payload throws inside the [async] function,
    before anything is shown; the promise of [showNotification] is neither
    awaited nor caught. *)
Definition handleEmergencyAlert (granted : bool) (p : option Payload)
    (shown : list Notification) : list Notification :=
  match p with
  | None => shown
  | Some p =>
      showNotification granted
                {| n_title := alertTitle;
                   body := alertBody (contactCount p);
                   icon := "/favicon.ico";
                   badge := "/favicon.ico";
                   vibrate := [200; 100; 200]%Z;
                   requireInteraction := true;
                   actions := [{| action := "view";
                                  action_title := "View Details" |}] |}
                shown
  end.

(** The [message] listener. *)
Definition onmessage (granted : bool) (event : MessageEvent)
    (shown : list Notification) : list Notification :=
  match data event with
  | Some d =>
      if String.eqb (msg_type d) "EMERGENCY_TRIGGERED"
      then handleEmergencyAlert granted (payload d) shown
      else shown
  | None => shown
  end.

End Worker.

(* ------------------------------------------------------------------ *)
(** ** Vocabulary of the statements and sample inputs *)

(** Some keyword of [K], lower-cased by [lower], occurs in [T]. *)
Definition KeywordIn (lower : string -> string) (K : list string) (T : string) : Prop :=
  exists k, In k K /\ JsString.Substring (lower k) T.

(** A host whose [toLowerCase] does to ASCII text what the language says. *)
Definition LowersAscii (c : Capabilities) : Prop :=
  forall t, JsString.isAscii t = true -> toLowerCase c t = JsString.asciiLowerCase t.

(** An axis read as a number, a missing or [null] axis counting for 0. *)
Definition axisOrZero (a : JsAxis) : float :=
  match a with
  | AxisNumber v => v
  | _ => 0%float
  end.

(** Voice and motion enabled, sensitivities 70 and 60, two keywords. *)
Definition scenarioSettings : DetectionSettings :=
  {| voiceEnabled := true; blinkEnabled := false; gestureEnabled := false;
     motionEnabled := true; voiceSensitivity := 70%float;
     motionSensitivity := 60%float;
     emergencyKeywords := ["help"; "emergency"]%string |}.

Definition heard (t : string) : SpeechRecognitionEvent :=
  {| results := [{| item0 := {| transcript := t; confidence := 1%float |};
                    otherItems := [] |}] |}.

(** A sample of magnitude 5: axes 3 and 4, the third one missing. *)
Definition shake5 : DeviceMotionEvent :=
  {| acceleration := Some {| acc_x := AxisNumber 3%float;
                             acc_y := AxisNumber 4%float;
                             acc_z := AxisUndefined |} |}.

(** The closure [startMotionDetection] creates for sensitivity 60. *)
Definition freshHandler60 : MotionHandler :=
  {| lastShakeTime := 0; shakeThreshold := thresholdOf scenarioSettings;
     attached := true |}.

(** Every synchronous step of a call is one of [P]. *)
Inductive Uses (P : (World -> World) -> Prop) {A : Type} : Async A -> Prop :=
| Uses_Ret (a : A) : Uses P (Ret a)
| Uses_Get (k : World -> Async A) :
    (forall w, Uses P (k w)) -> Uses P (Get k)
| Uses_Modify (f : World -> World) (k : Async A) :
    P f -> Uses P k -> Uses P (Modify f k)
| Uses_Await (r : Request) (k : Answer r -> Async A) :
    (forall ans, Uses P (k ans)) -> Uses P (Await r k).

(** The steps that relate every world to its successor by [R]. *)
Definition Along (R : World -> World -> Prop) (f : World -> World) : Prop :=
  forall w, R w (f w).




(** The rejection of [getUserMedia] when the user denies the camera. *)
Definition notAllowed : JsError :=
  {| instanceofError := true; err_name := "NotAllowedError" |}.

(** A host with every capability, whose recognition starts normally. The
    scenarios give it ASCII text only, which it lowers as every host does. *)
Definition fullCaps : Capabilities :=
  {| speechRecognitionInWindow := true; recognitionStartThrows := false;
     motionRequestPermission := true; mediaDevices := true;
     notificationDefault := true;
     toLowerCase := JsString.asciiLowerCase |}.

(** A host with no speech recognition and no media devices. *)
Definition bareCaps : Capabilities :=
  {| speechRecognitionInWindow := false; recognitionStartThrows := false;
     motionRequestPermission := true; mediaDevices := false;
     notificationDefault := false;
     toLowerCase := JsString.asciiLowerCase |}.

(** Every modality switched on. *)
Definition allEnabled : DetectionSettings :=
  {| voiceEnabled := true; blinkEnabled := true; gestureEnabled := true;
     motionEnabled := true; voiceSensitivity := 70%float;
     motionSensitivity := 60%float;
     emergencyKeywords := ["help"; "emergency"]%string |}.

(** Every modality switched off. *)
Definition allDisabled (vs ms : float) (K : list string) : DetectionSettings :=
  {| voiceEnabled := false; blinkEnabled := false; gestureEnabled := false;
     motionEnabled := false; voiceSensitivity := vs; motionSensitivity := ms;
     emergencyKeywords := K |}.

(** Host calls that register or start something. *)
Definition isRegistration (c : HostCall) : bool :=
  match c with
  | CallRecognitionStart _ | CallAddEventListener _ => true
  | _ => false
  end.

(** Nothing that [w] holds has been let go in [w']: a started recognition is
    still started (with the same handlers), an attached motion listener is
    still the same attached listener, a stream is the same stream, and the
    host calls made in between only start or register. *)
Definition StillHeld (w w' : World) : Prop :=
  (forall id r, nth_error (recognitions w) id = Some r ->
      exists r', nth_error (recognitions w') id = Some r' /\
                 rec_env r' = rec_env r /\
                 (rec_started r = true -> rec_started r' = true)) /\
  (forall id h, nth_error (motionHandlers w) id = Some h ->
      nth_error (motionHandlers w') id = Some h) /\
  (forall id s, nth_error (streams w) id = Some s ->
      nth_error (streams w') id = Some s) /\
  (exists cs, calls w' = calls w ++ cs /\ forallb isRegistration cs = true).

(** How often the host was asked to register, and to deregister, a motion
    listener. *)
Definition registrations (w : World) : nat :=
  List.length (filter (fun c => match c with CallAddEventListener _ => true | _ => false end)
                      (calls w)).

Definition deregistrations (w : World) : nat :=
  List.length (filter (fun c => match c with CallRemoveEventListener _ => true | _ => false end)
                      (calls w)).

(** Two starts in a row on a full host that grants everything, each from the
    render that sees the world as it then is; then a stop. *)
Definition grantAll : Oracle := host (Fulfilled Granted) (Fulfilled 1).

Definition startedOnce : World :=
  fst (complete grantAll
         (startBackgroundDetection (render (Some allEnabled) (mount fullCaps)))
         (mount fullCaps)).

Definition startedTwice : World :=
  fst (complete grantAll
         (startBackgroundDetection (render (Some allEnabled) startedOnce))
         startedOnce).

(** The promise a paused call waits for. *)
Definition pendingOn {A : Type} (p : Paused A) : option Request :=
  match p with
  | Done _ => None
  | Blocked r _ => Some r
  end.

(** A start on a full host, from the first render, that is still waiting for
    the motion permission when stop is called; the permission and then the
    camera are granted afterwards. *)
Definition pendingStart : World * Paused unit :=
  run (startBackgroundDetection (render (Some allEnabled) (mount fullCaps)))
      (mount fullCaps).

Definition stoppedMeanwhile : World :=
  stopBackgroundDetection (fst pendingStart).

Definition afterMotionGrant : World * Paused unit :=
  settle grantAll (snd pendingStart) stoppedMeanwhile.

Definition afterCameraGrant : World * Paused unit :=
  settle grantAll (snd afterMotionGrant) (fst afterMotionGrant).

(** The first session of a hook: start called from the render of the mounted
    hook, every promise settled by [o]. *)
Definition firstSession (c : Capabilities) (s : DetectionSettings) (o : Oracle) : World :=
  fst (complete o (startBackgroundDetection (render (Some s) (mount c))) (mount c)).

(** No recognition closes over an active render, and no timer is pending. *)
Definition NeverRestarts (w : World) : Prop :=
  Forall (fun r => isBackgroundActive (rec_env r) = false) (recognitions w) /\
  timers w = [].

(* ------------------------------------------------------------------ *)
(** ** Streams of samples, sessions in a row, and what a world holds *)

(** A motion handler fed a stream of samples, each with the clock reading at
    which it arrives: the closure at the end and the readings at which it
    called the emergency callback. *)
Fixpoint feed (h : MotionHandler) (samples : list (DeviceMotionEvent * Z))
    : MotionHandler * list Z :=
  match samples with
  | [] => (h, [])
  | (event, now) :: rest =>
      let '(h1, fired) := handleMotion h event now in
      let '(h2, times) := feed h1 rest in
      (h2, if fired then now :: times else times)
  end.

(** Each reading is more than 2000 ms after the one before, [last] first. *)
Fixpoint Spaced (last : Z) (times : list Z) : Prop :=
  match times with
  | [] => True
  | t :: rest => (2000 < t - last)%Z /\ Spaced t rest
  end.

(** No recognition is started, no motion listener attached, no track live. *)
Definition NothingHeld (w : World) : Prop :=
  Forall (fun r => rec_started r = false) (recognitions w) /\
  Forall (fun h => attached h = false) (motionHandlers w) /\
  Forall (fun s => forallb negb (tracks s) = true) (streams w).

(** Whatever is started, attached or live is what the refs point to. *)
Definition HeldIsTracked (w : World) : Prop :=
  (forall id r, nth_error (recognitions w) id = Some r ->
      rec_started r = true -> speechRecognitionRef w = Some id) /\
  (forall id h, nth_error (motionHandlers w) id = Some h ->
      attached h = true -> motionListenerRef w = Some id) /\
  (forall id s, nth_error (streams w) id = Some s ->
      forallb negb (tracks s) = false -> videoStreamRef w = Some id).

(** What a start, called in [w] and ended in [w'] with [flag] published for
    the channel, has done to that channel. *)
Definition VoiceOutcome (env : Render) (w w' : World) (flag : bool) : Prop :=
  (flag = true /\
   recognitions w' = recognitions w ++ [markStarted true (newRecognition env)] /\
   speechRecognitionRef w' = Some (List.length (recognitions w)))
  \/
  (flag = false /\
   speechRecognitionRef w' = speechRecognitionRef w /\
   (recognitions w' = recognitions w \/
    recognitions w' = recognitions w ++ [newRecognition env])).

Definition MotionOutcome (s : DetectionSettings) (w w' : World) (flag : bool) : Prop :=
  (flag = true /\
   motionHandlers w' = motionHandlers w ++ [{| lastShakeTime := 0;
                                               shakeThreshold := thresholdOf s;
                                               attached := true |}] /\
   motionListenerRef w' = Some (List.length (motionHandlers w)))
  \/
  (flag = false /\
   motionHandlers w' = motionHandlers w /\
   motionListenerRef w' = motionListenerRef w).

Definition CameraOutcome (w w' : World) (flag : bool) : Prop :=
  (flag = true /\
   (exists n, streams w' = streams w ++ [liveStream n]) /\
   videoStreamRef w' = Some (List.length (streams w)))
  \/
  (flag = false /\
   streams w' = streams w /\
   videoStreamRef w' = videoStreamRef w).

(** What happens to a hook over time, as far as it runs its sessions one
    after the other: a session, that is a start called from the render that
    sees the world as it is, run to completion against its host and followed
    by a stop; the engine of a recognition ends; the oldest timer fires; a
    result reaches a recognition; a motion event reaches the window. *)
Inductive Step : Type :=
| Session (props : option DetectionSettings) (o : Oracle)
| EngineEnds (id : nat)
| TimerFires
| ResultArrives (id : nat) (event : SpeechRecognitionEvent)
| MotionArrives (event : DeviceMotionEvent) (now : Z).

Definition step (st : Step) (w : World) : World :=
  match st with
  | Session props o =>
      stopBackgroundDetection
        (fst (complete o (startBackgroundDetection (render props w)) w))
  | EngineEnds id => deliverEnd id w
  | TimerFires => timerFires w
  | ResultArrives id event => deliverResult id event w
  | MotionArrives event now => deliverMotion event now w
  end.

Definition steps (l : list Step) (w : World) : World :=
  fold_left (fun x st => step st x) l w.

(** An axis that is absent, [null] or a zero of either sign. *)
Definition isZeroAxis (a : JsAxis) : Prop :=
  axisOrZero a = 0%float \/ axisOrZero a = PrimFloat.neg_zero.

(* ------------------------------------------------------------------ *)
(** ** The worker over a sequence of messages *)

(** The messages of a sequence reach the [message] listener one by one. *)
Definition processMessages (granted : bool) (events : list Worker.MessageEvent)
    (shown : list Worker.Notification) : list Worker.Notification :=
  fold_left (fun acc event => Worker.onmessage granted event acc) events shown.

(** The contact count a message announces: that of an EMERGENCY_TRIGGERED
    message that carries a payload. *)
Definition announcedCount (event : Worker.MessageEvent) : list Z :=
  match Worker.data event with
  | Some d =>
      match Worker.payload d with
      | Some p =>
          if String.eqb (Worker.msg_type d) "EMERGENCY_TRIGGERED"
          then [Worker.contactCount p] else []
      | None => []
      end
  | None => []
  end.

(* ------------------------------------------------------------------ *)
(** ** The contact manager ([ContactManager]) *)

Module Contacts.

Record Contact : Type := {
  id : string;
  name : string;
  phone : string;
  email : option string;
  relationship : string
}.

(** The [newContact] state of the form. *)
Record NewContact : Type := {
  f_name : string;
  f_phone : string;
  f_email : string;
  f_relationship : string
}.

Definition emptyForm : NewContact :=
  {| f_name := EmptyString; f_phone := EmptyString;
     f_email := EmptyString; f_relationship := EmptyString |}.

(** The component with what it writes outside: the item
    [emergency_contacts] of [localStorage], kept as the list its JSON text
    parses to ([None] when the item is absent), and the lists handed to
    [onContactsChange], oldest first. *)
Record State : Type := {
  contacts : list Contact;
  showAddForm : bool;
  newContact : NewContact;
  storage : option (list Contact);
  reported : list (list Contact);
  toasts : list Toast
}.

(** [!s] for a string. *)
Definition isEmpty (s : string) : bool :=
  match s with
  | EmptyString => true
  | String _ _ => false
  end.

(** The first render and its effect, which loads what was saved. *)
Definition mount (saved : option (list Contact)) : State :=
  match saved with
  | Some parsed =>
      {| contacts := parsed; showAddForm := false; newContact := emptyForm;
         storage := saved; reported := [parsed]; toasts := [] |}
  | None =>
      {| contacts := []; showAddForm := false; newContact := emptyForm;
         storage := None; reported := []; toasts := [] |}
  end.

Definition saveContacts (updatedContacts : list Contact) (st : State) : State :=
  {| contacts := updatedContacts; showAddForm := showAddForm st;
     newContact := newContact st; storage := Some updatedContacts;
     reported := reported st ++ [updatedContacts]; toasts := toasts st |}.

Definition showToast (t : Toast) (st : State) : State :=
  {| contacts := contacts st; showAddForm := showAddForm st;
     newContact := newContact st; storage := storage st;
     reported := reported st; toasts := toasts st ++ [t] |}.

Definition setForm (f : NewContact) (visible : bool) (st : State) : State :=
  {| contacts := contacts st; showAddForm := visible;
     newContact := f; storage := storage st;
     reported := reported st; toasts := toasts st |}.

Definition missingInformation : Toast :=
  {| title := "Missing Information";
     description := "Please provide at least name and phone number.";
     variant := VariantDestructive |}.

Definition contactAdded (c : Contact) : Toast :=
  {| title := "Contact Added";
     description := append (name c) " has been added to your emergency contacts.";
     variant := VariantDefault |}.

Definition contactRemoved : Toast :=
  {| title := "Contact Removed";
     description := "Emergency contact has been removed.";
     variant := VariantDefault |}.

(** The contact [addContact] builds: [{ id: Date.now().toString(),
    ...newContact }]. *)
Definition newContactAt (now : Z) (f : NewContact) : Contact :=
  {| id := Worker.numberToString now; name := f_name f; phone := f_phone f;
     email := Some (f_email f); relationship := f_relationship f |}.

(** [addContact], [now] being what [Date.now()] returns. *)
Definition addContact (now : Z) (st : State) : State :=
  if isEmpty (f_name (newContact st)) || isEmpty (f_phone (newContact st))
  then showToast missingInformation st
  else
    let contact := newContactAt now (newContact st) in
    showToast (contactAdded contact)
      (setForm emptyForm false (saveContacts (contacts st ++ [contact]) st)).

(** [removeContact] *)
Definition removeContact (rid : string) (st : State) : State :=
  showToast contactRemoved
    (saveContacts (filter (fun c => negb (String.eqb (id c) rid)) (contacts st)) st).

(** What the user can do: type into the form, show or hide it, save it,
    remove a contact. *)
Inductive Action : Type :=
| Type_ (f : NewContact)
| ToggleForm
| Save (now : Z)
| Remove (rid : string).

Definition act (a : Action) (st : State) : State :=
  match a with
  | Type_ f => setForm f (showAddForm st) st
  | ToggleForm => setForm (newContact st) (negb (showAddForm st)) st
  | Save now => addContact now st
  | Remove rid => removeContact rid st
  end.

Definition acts (l : list Action) (st : State) : State :=
  fold_left (fun s a => act a s) l st.

End Contacts.

(* ------------------------------------------------------------------ *)
(** ** The settings page (the [DetectionSettings] component) *)

Module Settings.

(** A [Partial<DetectionSettings>]: [None] for a key that is absent. *)
Record Patch : Type := {
  p_voiceEnabled : option bool;
  p_blinkEnabled : option bool;
  p_gestureEnabled : option bool;
  p_motionEnabled : option bool;
  p_voiceSensitivity : option float;
  p_motionSensitivity : option float;
  p_emergencyKeywords : option (list string)
}.

Definition noPatch : Patch :=
  {| p_voiceEnabled := None; p_blinkEnabled := None; p_gestureEnabled := None;
     p_motionEnabled := None; p_voiceSensitivity := None;
     p_motionSensitivity := None; p_emergencyKeywords := None |}.

Definition orElse {A : Type} (o : option A) (d : A) : A :=
  match o with
  | Some a => a
  | None => d
  end.

(** [{ ...settings, ...newSettings }] *)
Definition spread (s : DetectionSettings) (p : Patch) : DetectionSettings :=
  {| voiceEnabled := orElse (p_voiceEnabled p) (voiceEnabled s);
     blinkEnabled := orElse (p_blinkEnabled p) (blinkEnabled s);
     gestureEnabled := orElse (p_gestureEnabled p) (gestureEnabled s);
     motionEnabled := orElse (p_motionEnabled p) (motionEnabled s);
     voiceSensitivity := orElse (p_voiceSensitivity p) (voiceSensitivity s);
     motionSensitivity := orElse (p_motionSensitivity p) (motionSensitivity s);
     emergencyKeywords := orElse (p_emergencyKeywords p) (emergencyKeywords s) |}.

(** The initial state of the page. *)
Definition defaults : DetectionSettings :=
  {| voiceEnabled := true; blinkEnabled := true; gestureEnabled := true;
     motionEnabled := true; voiceSensitivity := 70%float;
     motionSensitivity := 60%float;
     emergencyKeywords := ["help"; "emergency"; "call 911"; "danger"]%string |}.

(** The page with what it writes outside: the item [detection_settings] of
    [localStorage] and the settings handed to [onSettingsChange]. *)
Record State : Type := {
  current : DetectionSettings;
  storage : option DetectionSettings;
  reported : list DetectionSettings
}.

Definition mount (saved : option DetectionSettings) : State :=
  match saved with
  | Some parsed => {| current := parsed; storage := saved; reported := [parsed] |}
  | None => {| current := defaults; storage := None; reported := [] |}
  end.

Definition updateSettings (newSettings : Patch) (st : State) : State :=
  let updated := spread (current st) newSettings in
  {| current := updated; storage := Some updated;
     reported := reported st ++ [updated] |}.

(** The four entries of [detectionMethods], as far as the page computes with
    them: the id and the [enabled] flag. *)
Definition detectionMethods (s : DetectionSettings) : list (string * bool) :=
  [("voice", voiceEnabled s); ("blink", blinkEnabled s);
   ("gesture", gestureEnabled s); ("motion", motionEnabled s)]%string.

Definition enabledCount (s : DetectionSettings) : nat :=
  List.length (filter (fun method => snd method) (detectionMethods s)).

(** The [onToggle] of each method. *)
Definition toggleVoice (enabled : bool) : Patch :=
  {| p_voiceEnabled := Some enabled; p_blinkEnabled := None;
     p_gestureEnabled := None; p_motionEnabled := None;
     p_voiceSensitivity := None; p_motionSensitivity := None;
     p_emergencyKeywords := None |}.

Definition toggleBlink (enabled : bool) : Patch :=
  {| p_voiceEnabled := None; p_blinkEnabled := Some enabled;
     p_gestureEnabled := None; p_motionEnabled := None;
     p_voiceSensitivity := None; p_motionSensitivity := None;
     p_emergencyKeywords := None |}.

Definition toggleGesture (enabled : bool) : Patch :=
  {| p_voiceEnabled := None; p_blinkEnabled := None;
     p_gestureEnabled := Some enabled; p_motionEnabled := None;
     p_voiceSensitivity := None; p_motionSensitivity := None;
     p_emergencyKeywords := None |}.

Definition toggleMotion (enabled : bool) : Patch :=
  {| p_voiceEnabled := None; p_blinkEnabled := None;
     p_gestureEnabled := None; p_motionEnabled := Some enabled;
     p_voiceSensitivity := None; p_motionSensitivity := None;
     p_emergencyKeywords := None |}.

(** The motion slider ([min] 10, [max] 100, [step] 10) at its [k]-th stop. *)
Definition motionSlider (k : Z) : Patch :=
  {| p_voiceEnabled := None; p_blinkEnabled := None;
     p_gestureEnabled := None; p_motionEnabled := None;
     p_voiceSensitivity := None;
     p_motionSensitivity := Some (PrimFloat.of_uint63 (Uint63.of_Z (10 * k)));
     p_emergencyKeywords := None |}.

(** Two patches in a row, as one: the later one wins where both speak. *)
Definition thenPatch (p q : Patch) : Patch :=
  {| p_voiceEnabled := orElse (option_map Some (p_voiceEnabled q)) (p_voiceEnabled p);
     p_blinkEnabled := orElse (option_map Some (p_blinkEnabled q)) (p_blinkEnabled p);
     p_gestureEnabled := orElse (option_map Some (p_gestureEnabled q)) (p_gestureEnabled p);
     p_motionEnabled := orElse (option_map Some (p_motionEnabled q)) (p_motionEnabled p);
     p_voiceSensitivity :=
       orElse (option_map Some (p_voiceSensitivity q)) (p_voiceSensitivity p);
     p_motionSensitivity :=
       orElse (option_map Some (p_motionSensitivity q)) (p_motionSensitivity p);
     p_emergencyKeywords :=
       orElse (option_map Some (p_emergencyKeywords q)) (p_emergencyKeywords p) |}.

(** What the parent holds: the last settings handed to [onSettingsChange],
    [null] as long as none was. *)
Definition parentSettings (st : State) : option DetectionSettings :=
  match reported st with
  | [] => None
  | first :: rest => Some (List.last rest first)
  end.

Definition updates (patches : list Patch) (st : State) : State :=
  fold_left (fun s p => updateSettings p s) patches st.

End Settings.

(* ------------------------------------------------------------------ *)
(** ** The emergency button ([EmergencyButton]) *)

Module Button.

(** The component, the intervals it has set (each with the [count] of its
    closure) and what it has called. *)
Record State : Type := {
  countdown : option Z;
  intervals : list Z;
  emergencies : nat;
  toasts : list Toast
}.

Definition idle : State :=
  {| countdown := None; intervals := []; emergencies := 0; toasts := [] |}.

Definition alertSent : Toast :=
  {| title := "Emergency Alert Sent!";
     description := "Your emergency contacts have been notified.";
     variant := VariantDestructive |}.

(** [handleEmergencyTrigger], for the [emergencyMode] of the render. *)
Definition handleEmergencyTrigger (emergencyMode : bool) (st : State) : State :=
  if emergencyMode then st
  else {| countdown := Some 3%Z; intervals := intervals st ++ [3%Z];
          emergencies := emergencies st; toasts := toasts st |}.

Fixpoint removeAt {A : Type} (i : nat) (l : list A) : list A :=
  match l, i with
  | [], _ => []
  | _ :: rest, O => rest
  | x :: rest, S j => x :: removeAt j rest
  end.

(** The callback of the [i]-th interval runs. *)
Definition tick (i : nat) (st : State) : State :=
  match nth_error (intervals st) i with
  | None => st
  | Some count =>
      let count := (count - 1)%Z in
      if (count =? 0)%Z
      then {| countdown := None; intervals := removeAt i (intervals st);
              emergencies := S (emergencies st);
              toasts := toasts st ++ [alertSent] |}
      else {| countdown := Some count;
              intervals := update_nth i (fun _ => count) (intervals st);
              emergencies := emergencies st; toasts := toasts st |}
  end.

Fixpoint ticks (n : nat) (st : State) : State :=
  match n with
  | O => st
  | S k => ticks k (tick 0 st)
  end.

End Button.

(* ------------------------------------------------------------------ *)
(** ** The dashboard page ([Index]) *)

Module Dashboard.

Record LocationData : Type := {
  latitude : float;
  longitude : float;
  accuracy : float;
  timestamp : Z;
  address : option string
}.

(** The values of the properties of a settings object. *)
Inductive JsValue : Type :=
| JsBool (b : bool)
| JsNumber (v : float)
| JsStrings (l : list string).

(** ToBoolean *)
Definition truthy (v : JsValue) : bool :=
  match v with
  | JsBool b => b
  | JsNumber v => negb (PrimFloat.eqb v 0) && PrimFloat.eqb v v
  | JsStrings _ => true
  end.

(** [Object.entries(detectionSettings)] *)
Definition entries (s : DetectionSettings) : list (string * JsValue) :=
  [("voiceEnabled", JsBool (voiceEnabled s));
   ("blinkEnabled", JsBool (blinkEnabled s));
   ("gestureEnabled", JsBool (gestureEnabled s));
   ("motionEnabled", JsBool (motionEnabled s));
   ("voiceSensitivity", JsNumber (voiceSensitivity s));
   ("motionSensitivity", JsNumber (motionSensitivity s));
   ("emergencyKeywords", JsStrings (emergencyKeywords s))]%string.

(** [Object.entries(..).filter(([key, value]) =>
      key.includes('Enabled') && value).length] *)
Definition countEnabled (s : DetectionSettings) : nat :=
  List.length
    (filter (fun entry => JsString.includes (fst entry) "Enabled" && truthy (snd entry))
            (entries s)).

(** [enabledDetectionMethods] *)
Definition enabledDetectionMethods (detectionSettings : option DetectionSettings) : nat :=
  match detectionSettings with
  | Some s => countEnabled s
  | None => 0
  end.

(** What the auto-start effect depends on. *)
Record Deps : Type := {
  contacts : list Contacts.Contact;
  location : option LocationData;
  detectionSettings : option DetectionSettings
}.

(** The auto-start effect: the [isMonitoring] state after it has run. *)
Definition autoStart (d : Deps) (isMonitoring : bool) : bool :=
  match contacts d, location d, detectionSettings d with
  | _ :: _, Some _, Some s =>
      if (0 <? countEnabled s)%nat then true else isMonitoring
  | _, _, _ => isMonitoring
  end.

(** The effect runs after the first render and after each change of a
    dependency. *)
Definition monitoringAfter (changes : list Deps) (isMonitoring : bool) : bool :=
  fold_left (fun m d => autoStart d m) changes isMonitoring.

(** The [text] of [getSystemStatus]. *)
Definition systemStatus (emergencyMode isMonitoring : bool) : string :=
  if emergencyMode then "Emergency Active"
  else if isMonitoring then "Monitoring Active"
  else "System Inactive".

End Dashboard.

(* ================================================================== *)
(** * Properties *)

(** ** Strings and the asynchronous runs *)

Lemma startsWith_spec (hay needle : string) :
  JsString.startsWith hay needle = true <-> exists post, hay = append needle post.
Proof.
  revert hay; induction needle as [|a n IH]; intros hay; simpl.
  - split; [intros _; now exists hay | reflexivity].
  - destruct hay as [|b h].
    + split; [discriminate | intros [post H]; discriminate].
    + rewrite andb_true_iff, Ascii.eqb_eq, IH. split.
      * intros [-> [post ->]]. now exists post.
      * intros [post H]. injection H as -> ->. split; [reflexivity | now exists post].
Qed.

Lemma includes_spec (hay needle : string) :
  JsString.includes hay needle = true <-> JsString.Substring needle hay.
Proof.
  unfold JsString.Substring. induction hay as [|b h IH].
  - simpl. rewrite orb_false_r, startsWith_spec. split.
    + intros [post H]. now exists EmptyString, post.
    + intros [pre [post H]]. destruct pre; simpl in H.
      * now exists post.
      * discriminate.
  - cbn [JsString.includes]. rewrite orb_true_iff, startsWith_spec, IH. split.
    + intros [[post H] | [pre [post H]]].
      * now exists EmptyString, post.
      * exists (String b pre), post. simpl. now rewrite H.
    + intros [pre [post H]]. destruct pre as [|c pre]; simpl in H.
      * left. now exists post.
      * right. injection H as _ H. now exists pre, post.
Qed.

Lemma complete_bind {A B : Type} (o : Oracle) (m : Async A) (f : A -> Async B) :
  forall w, complete o (bind m f) w =
            complete o (f (snd (complete o m w))) (fst (complete o m w)).
Proof.
  induction m as [a | k IH | g k IH | r k IH]; intros w; simpl; auto.
Qed.

(** ** Voice channel: keyword matching *)

Lemma hasEmergencyKeyword_spec (lower : string -> string) (K : list string) (T : string) :
  hasEmergencyKeyword lower K T = true <-> KeywordIn lower K T.
Proof.
  unfold hasEmergencyKeyword, KeywordIn. rewrite existsb_exists.
  split; intros [k [Hin Hk]]; exists k; split; auto;
    now apply includes_spec.
Qed.

(** C1. On an incremental result the handler lower-cases, with the
    [toLowerCase] of the host whatever it is, the concatenation of the best
    transcripts; either some keyword, lower-cased the same way, occurs in it
    and the emergency callback has been invoked exactly once (nothing else
    changes), or none occurs and the world is untouched. *)
Theorem voice_fires_once_iff_keyword
    (s : DetectionSettings) (event : SpeechRecognitionEvent) (w : World) :
  let lower := toLowerCase (caps w) in
  let T := lower (JsString.join
                    (map (fun result => transcript (item0 result)) (results event))) in
  let w' := onresult s event w in
  ((exists k, In k (emergencyKeywords s) /\
              exists pre post, T = append pre (append (lower k) post)) /\
   emergencyCalls w' = S (emergencyCalls w) /\
   w' = set_emergencyCalls (S (emergencyCalls w)) w)
  \/
  (~ (exists k, In k (emergencyKeywords s) /\
                exists pre post, T = append pre (append (lower k) post)) /\
   emergencyCalls w' = emergencyCalls w /\
   w' = w).
Proof.
  intros lower T w'. subst w'. unfold onresult. cbv zeta. fold lower.
  fold (eventTranscript lower event). change (eventTranscript lower event) with T.
  change (exists k, In k (emergencyKeywords s) /\
                    exists pre post, T = append pre (append (lower k) post))
    with (KeywordIn lower (emergencyKeywords s) T).
  destruct (hasEmergencyKeyword lower (emergencyKeywords s) T) eqn:E.
  - left. apply hasEmergencyKeyword_spec in E. repeat split; auto.
  - right. repeat split; auto.
    intros H. apply hasEmergencyKeyword_spec in H. congruence.
Qed.

(** On ASCII text, as on the sample host, the match is blind to case. *)
Example voice_please_help_me :
  emergencyCalls (onresult scenarioSettings (heard "Please HELP me") (mount fullCaps)) = 1.
Proof. reflexivity. Qed.

Example voice_two_keywords_one_call :
  emergencyCalls (onresult scenarioSettings (heard "HELP! Emergency") (mount fullCaps)) = 1.
Proof. reflexivity. Qed.

Example voice_no_keyword :
  onresult scenarioSettings (heard "good morning") (mount fullCaps) = mount fullCaps.
Proof. reflexivity. Qed.

(** ** Motion channel: magnitude, threshold and debounce *)

Lemma totalAcceleration_norm (a : Acceleration) :
  totalAcceleration a =
  PrimFloat.sqrt (axisOrZero (acc_x a) * axisOrZero (acc_x a)
                  + axisOrZero (acc_y a) * axisOrZero (acc_y a)
                  + axisOrZero (acc_z a) * axisOrZero (acc_z a))%float.
Proof.
  unfold totalAcceleration.
  destruct (acc_x a), (acc_y a), (acc_z a); reflexivity.
Qed.

Lemma handleMotion_fires_iff (h : MotionHandler) (event : DeviceMotionEvent) (now : Z) :
  snd (handleMotion h event now) = true <->
  exists a, acceleration event = Some a /\
            PrimFloat.ltb (shakeThreshold h) (totalAcceleration a) = true /\
            (2000 < now - lastShakeTime h)%Z.
Proof.
  unfold handleMotion. destruct (acceleration event) as [a|].
  - destruct (PrimFloat.ltb (shakeThreshold h) (totalAcceleration a)) eqn:E.
    + destruct (Z.gtb_spec (now - lastShakeTime h) 2000) as [G|G]; simpl.
      * split; auto. intros _. exists a. repeat split; auto.
      * split; [discriminate|]. intros [a' [Ha [_ Hlt]]]. lia.
    + simpl. split; [discriminate|].
      intros [a' [Ha [Hlt _]]]. injection Ha as <-. congruence.
  - simpl. split; [discriminate|]. intros [a [Ha _]]. discriminate.
Qed.

(** C2, as the code has it. The handler that [startMotionDetection] attaches
    has threshold (100 - motionSensitivity) / 10 and last trigger time 0. A
    sample fires exactly when it carries an acceleration whose Euclidean norm
    (missing axes counting for 0) is above the threshold and strictly more
    than 2000 ms separate [Date.now()] from the last trigger time; a firing
    sample records its time, any other leaves the closure as it was. With
    sensitivity 60 the threshold is 4; from any clock value above 2000, a
    magnitude-5 sample fires, one 1000 ms later does not, one 2100 ms later
    fires again. *)
Theorem motion_fires_iff_above_threshold_and_debounced :
  (forall (b : bool) (s : DetectionSettings) (c : Settled nat) (w : World),
      motionEnabled s = true ->
      let env := {| isBackgroundActive := b; settings := Some s |} in
      let w' := fst (complete (host (Fulfilled Granted) c)
                       (startMotionDetection env) w) in
      motionHandlers w' =
      motionHandlers w ++ [{| lastShakeTime := 0;
                              shakeThreshold := (100 - motionSensitivity s) / 10;
                              attached := true |}])
  /\
  (forall (h : MotionHandler) (event : DeviceMotionEvent) (now : Z),
      let h' := fst (handleMotion h event now) in
      let fired := snd (handleMotion h event now) in
      (fired = true <->
       exists a, acceleration event = Some a /\
         PrimFloat.ltb (shakeThreshold h)
           (PrimFloat.sqrt (axisOrZero (acc_x a) * axisOrZero (acc_x a)
                            + axisOrZero (acc_y a) * axisOrZero (acc_y a)
                            + axisOrZero (acc_z a) * axisOrZero (acc_z a))) = true /\
         (2000 < now - lastShakeTime h)%Z)
      /\ h' = (if fired
               then {| lastShakeTime := now; shakeThreshold := shakeThreshold h;
                       attached := attached h |}
               else h))
  /\
  thresholdOf scenarioSettings = 4%float
  /\
  (forall t0 : Z, (2000 < t0)%Z ->
      let r0 := handleMotion freshHandler60 shake5 t0 in
      let r1 := handleMotion (fst r0) shake5 (t0 + 1000) in
      let r2 := handleMotion (fst r1) shake5 (t0 + 2100) in
      snd r0 = true /\ snd r1 = false /\ snd r2 = true).
Proof.
  split; [|split; [|split]].
  - intros b s c w He env w'. subst w'.
    unfold startMotionDetection, attachMotion, optFlag. cbn [settings env].
    rewrite He. cbn [negb bind get complete].
    destruct (motionRequestPermission (caps w)); reflexivity.
  - intros h event now h' fired. split.
    + subst fired. rewrite handleMotion_fires_iff.
      split; intros [a [Ha Hr]]; exists a; split; auto;
        [rewrite <- totalAcceleration_norm | rewrite totalAcceleration_norm]; exact Hr.
    + subst h' fired. unfold handleMotion.
      destruct (acceleration event) as [a|]; [|reflexivity].
      destruct (PrimFloat.ltb _ _); [|reflexivity].
      destruct (_ >? _)%Z; reflexivity.
  - reflexivity.
  - intros t0 Ht r0 r1 r2.
    assert (E0 : r0 = ({| lastShakeTime := t0;
                          shakeThreshold := thresholdOf scenarioSettings;
                          attached := true |}, true)).
    { subst r0. unfold handleMotion, freshHandler60, shake5. cbn -[Z.gtb Z.sub].
      destruct (Z.gtb_spec (t0 - 0) 2000); [reflexivity | lia]. }
    assert (E1 : r1 = (fst r0, false)).
    { subst r1. rewrite E0. unfold handleMotion, shake5. cbn -[Z.gtb Z.sub Z.add].
      destruct (Z.gtb_spec (t0 + 1000 - t0) 2000); [lia | reflexivity]. }
    assert (E2 : snd r2 = true).
    { subst r2. rewrite E1, E0. unfold handleMotion, shake5. cbn -[Z.gtb Z.sub Z.add].
      destruct (Z.gtb_spec (t0 + 2100 - t0) 2000); [reflexivity | lia]. }
    rewrite E0, E1, E2. auto.
Qed.

Lemma motion_fires_iff_above_threshold_and_debounced_witness :
  (2000 < 1700000000000)%Z /\
  snd (handleMotion freshHandler60 shake5 1700000000000) = true.
Proof.
  split; [lia|].
  exact (proj1 (proj2 (proj2 (proj2 motion_fires_iff_above_threshold_and_debounced))
                  1700000000000%Z eq_refl)).
Defined.

(** C2, the claim as stated, fails at the boundary: 2000 ms after a trigger,
    so with "at least 2 time units" elapsed, a sample whose magnitude 5 is
    above the threshold 4 does not fire. *)
Lemma motion_exactly_two_seconds_does_not_fire :
  let r0 := handleMotion freshHandler60 shake5 10000 in
  let r1 := handleMotion (fst r0) shake5 12000 in
  option_map totalAcceleration (acceleration shake5) = Some 5%float /\
  shakeThreshold (fst r0) = 4%float /\
  PrimFloat.ltb 4 5 = true /\
  snd r0 = true /\
  lastShakeTime (fst r0) = 10000%Z /\
  (12000 - lastShakeTime (fst r0) >= 2000)%Z /\
  snd r1 = false.
Proof. cbv zeta. repeat split; try reflexivity. vm_compute. discriminate. Qed.

(** ** The supervisor: start *)

Lemma Uses_bind (P : (World -> World) -> Prop) {A B : Type}
    (m : Async A) (f : A -> Async B) :
  Uses P m -> (forall a, Uses P (f a)) -> Uses P (bind m f).
Proof.
  intros Hm Hf. induction Hm; simpl; auto; constructor; auto.
Qed.

Lemma Uses_complete (R : World -> World -> Prop) {A : Type}
    (o : Oracle) (p : Async A) :
  (forall w, R w w) ->
  (forall w1 w2 w3, R w1 w2 -> R w2 w3 -> R w1 w3) ->
  Uses (Along R) p ->
  forall w, R w (fst (complete o p w)).
Proof.
  intros Hrefl Htrans Hp. induction Hp as [a | k _ IH | f k Hf _ IH | r k _ IH];
    intros w; simpl; auto.
  apply Htrans with (f w); auto.
Qed.


(** Walks the tree of a call, splitting on every test the code makes. *)
Ltac walk prim :=
  repeat first
    [ apply Uses_Ret
    | apply Uses_Get; intros ?
    | apply Uses_Await; intros ?
    | apply Uses_Modify; [ solve [prim] | ]
    | progress cbn [bind get act await]
    | match goal with
      | |- context [match ?x with _ => _ end] => destruct x
      end ].

Lemma startVoiceDetection_uses (P : (World -> World) -> Prop) (env : Render) :
  P (pushRecognition (newRecognition env)) ->
  (forall id, P (recognition_start id)) ->
  (forall r, P (set_speechRecognitionRef r)) ->
  Uses P (startVoiceDetection env).
Proof.
  intros H1 H2 H3. unfold startVoiceDetection. walk ltac:(auto).
Qed.

Lemma startMotionDetection_uses (P : (World -> World) -> Prop) (env : Render) :
  (forall h, P (addEventListener h)) ->
  (forall r, P (set_motionListenerRef r)) ->
  (forall t, P (toast t)) ->
  Uses P (startMotionDetection env).
Proof.
  intros H1 H2 H3. unfold startMotionDetection, attachMotion. walk ltac:(auto).
Qed.

Lemma startCameraDetection_uses (P : (World -> World) -> Prop) (env : Render) :
  (forall s, P (pushStream s)) ->
  (forall r, P (set_videoStreamRef r)) ->
  (forall t, P (toast t)) ->
  Uses P (startCameraDetection env).
Proof.
  intros H1 H2 H3. unfold startCameraDetection. walk ltac:(auto).
Qed.

Lemma startBackgroundDetection_uses (P : (World -> World) -> Prop) (env : Render) :
  P (pushRecognition (newRecognition env)) ->
  (forall id, P (recognition_start id)) ->
  (forall r, P (set_speechRecognitionRef r)) ->
  (forall h, P (addEventListener h)) ->
  (forall r, P (set_motionListenerRef r)) ->
  (forall s, P (pushStream s)) ->
  (forall r, P (set_videoStreamRef r)) ->
  (forall t, P (toast t)) ->
  P (set_st_isBackgroundActive true) ->
  (forall d, P (set_st_detectionStatus d)) ->
  Uses P (startBackgroundDetection env).
Proof.
  intros. unfold startBackgroundDetection.
  destruct (settings env) as [s|]; [|walk ltac:(auto)].
  cbn [bind act]. apply Uses_Modify; auto.
  apply Uses_bind.
  { destruct (voiceEnabled s); [apply startVoiceDetection_uses; auto | constructor]. }
  intros v. apply Uses_bind.
  { destruct (motionEnabled s); [apply startMotionDetection_uses; auto | constructor]. }
  intros m. apply Uses_bind.
  { destruct (blinkEnabled s || gestureEnabled s);
      [apply startCameraDetection_uses; auto | constructor]. }
  intros c. walk ltac:(auto).
Qed.







(** C7. Without settings, start returns at once, awaiting nothing: its only
    effect is the destructive "Configuration Required" toast; the state, the
    refs and every host object are as before, and no host call is made. *)
Theorem start_without_settings_is_refused (b : bool) (o : Oracle) (w : World) :
  let env := {| isBackgroundActive := b; settings := None |} in
  let w' := toast {| title := "Configuration Required";
                     description := "Please configure detection settings first";
                     variant := VariantDestructive |} w in
  run (startBackgroundDetection env) w = (w', Done tt) /\
  complete o (startBackgroundDetection env) w = (w', tt) /\
  st_isBackgroundActive w' = st_isBackgroundActive w /\
  st_detectionStatus w' = st_detectionStatus w /\
  (speechRecognitionRef w', motionListenerRef w', videoStreamRef w')
  = (speechRecognitionRef w, motionListenerRef w, videoStreamRef w) /\
  recognitions w' = recognitions w /\
  motionHandlers w' = motionHandlers w /\
  streams w' = streams w /\
  timers w' = timers w /\
  calls w' = calls w /\
  emergencyCalls w' = emergencyCalls w.
Proof. cbv zeta. repeat split. Qed.


Lemma start_marks_active (b : bool) (s : DetectionSettings) (o : Oracle) (w : World) :
  st_isBackgroundActive
    (fst (complete o (startBackgroundDetection
                        {| isBackgroundActive := b; settings := Some s |}) w)) = true.
Proof.
  set (env := {| isBackgroundActive := b; settings := Some s |}).
  pose (R := fun w w' : World =>
               st_isBackgroundActive w' = true \/
               st_isBackgroundActive w' = st_isBackgroundActive w).
  unfold startBackgroundDetection. cbn [settings env bind act complete].
  fold env. set (rest := bind _ _).
  assert (H : R (set_st_isBackgroundActive true w)
                (fst (complete o rest (set_st_isBackgroundActive true w)))).
  { apply (Uses_complete (R := R) o).
    - intros w1. now right.
    - intros w1 w2 w3 [H1|H1] [H2|H2]; unfold R; try (now left).
      + left. congruence.
      + right. congruence.
    - assert (U : Uses (Along R) (startBackgroundDetection env)).
      { apply startBackgroundDetection_uses; intros; intros w1; unfold R; auto. }
      unfold startBackgroundDetection in U. cbn [settings env bind act] in U.
      inversion U; subst; assumption. }
  destruct H as [H|H]; [exact H | rewrite H; reflexivity].
Qed.

(** C10. With settings present, start marks the session active whatever the
    channels do: in every run [isBackgroundActive] ends up [true]. With every
    modality off, and likewise with every modality on when each channel
    fails to start, the session is active with an all-false status. *)
Theorem start_marks_session_active :
  (forall (b : bool) (s : DetectionSettings) (o : Oracle) (w : World),
      st_isBackgroundActive
        (fst (complete o (startBackgroundDetection
                            {| isBackgroundActive := b; settings := Some s |}) w))
      = true)
  /\
  (forall (b : bool) (vs ms : float) (K : list string) (o : Oracle) (c : Capabilities),
      let w' := fst (complete o (startBackgroundDetection
                        {| isBackgroundActive := b;
                           settings := Some (allDisabled vs ms K) |}) (mount c)) in
      st_isBackgroundActive w' = true /\
      st_detectionStatus w' = {| voice := false; motion := false; camera := false |} /\
      recognitions w' = [] /\ motionHandlers w' = [] /\ streams w' = [])
  /\
  (forall b : bool,
      let w' := fst (complete (host (Fulfilled Denied) (Rejected notAllowed))
                       (startBackgroundDetection
                          {| isBackgroundActive := b; settings := Some allEnabled |})
                       (mount bareCaps)) in
      st_isBackgroundActive w' = true /\
      st_detectionStatus w' = {| voice := false; motion := false; camera := false |}).
Proof.
  split; [|split].
  - intros. apply start_marks_active.
  - intros b vs ms K o c. cbv zeta. cbn.
    destruct (notificationDefault c); repeat split.
  - intros b. cbv zeta. repeat split.
Qed.


(** ** Start while a session is active *)

Lemma nth_error_update_nth {A : Type} (f : A -> A) (l : list A) (i j : nat) :
  nth_error (update_nth i f l) j =
  if Nat.eqb i j then option_map f (nth_error l j) else nth_error l j.
Proof.
  revert i j. induction l as [|x l IH]; intros i j.
  - destruct i, j; simpl; try reflexivity; destruct (Nat.eqb _ _); reflexivity.
  - destruct i, j; simpl; try reflexivity. apply IH.
Qed.


Lemma nth_error_snoc {A : Type} (l : list A) (x y : A) (id : nat) :
  nth_error l id = Some y -> nth_error (l ++ [x]) id = Some y.
Proof.
  intros H. rewrite nth_error_app1; auto.
  apply nth_error_Some. congruence.
Qed.

Lemma StillHeld_refl (w : World) : StillHeld w w.
Proof.
  repeat split; auto.
  - intros id r H. exists r. auto.
  - exists []. now rewrite app_nil_r.
Qed.

Lemma StillHeld_trans (w1 w2 w3 : World) :
  StillHeld w1 w2 -> StillHeld w2 w3 -> StillHeld w1 w3.
Proof.
  intros (R1 & H1 & S1 & cs1 & C1 & F1) (R2 & H2 & S2 & cs2 & C2 & F2).
  repeat split; auto.
  - intros id r Hr. destruct (R1 id r Hr) as (r' & Hr' & E' & St').
    destruct (R2 id r' Hr') as (r'' & Hr'' & E'' & St'').
    exists r''. repeat split; auto. congruence.
  - exists (cs1 ++ cs2). rewrite C2, C1, app_assoc. split; auto.
    rewrite forallb_app, F1, F2. reflexivity.
Qed.

Lemma StillHeld_fields (w w' : World) :
  recognitions w' = recognitions w ->
  motionHandlers w' = motionHandlers w ->
  streams w' = streams w ->
  calls w' = calls w ->
  StillHeld w w'.
Proof.
  intros R H S C. unfold StillHeld. rewrite R, H, S, C.
  apply (StillHeld_refl w).
Qed.

Lemma StillHeld_state (f : World -> World) :
  (forall w, recognitions (f w) = recognitions w) ->
  (forall w, motionHandlers (f w) = motionHandlers w) ->
  (forall w, streams (f w) = streams w) ->
  (forall w, calls (f w) = calls w) ->
  Along StillHeld f.
Proof.
  intros R H S C w. apply StillHeld_fields; auto.
Qed.

Lemma StillHeld_pushRecognition (r : Recognition) : Along StillHeld (pushRecognition r).
Proof.
  intros w. unfold StillHeld. cbn. repeat split; auto.
  - intros id r0 H. exists r0. repeat split; auto. now apply nth_error_snoc.
  - exists []. now rewrite app_nil_r.
Qed.

Lemma StillHeld_recognition_start (id : nat) : Along StillHeld (recognition_start id).
Proof.
  intros w. unfold StillHeld. cbn. repeat split; auto.
  - intros j r H. rewrite nth_error_update_nth, H.
    destruct (Nat.eqb id j); cbn.
    + exists (markStarted true r). auto.
    + exists r. auto.
  - exists [CallRecognitionStart id]. auto.
Qed.

Lemma StillHeld_addEventListener (h : MotionHandler) : Along StillHeld (addEventListener h).
Proof.
  intros w. unfold StillHeld. cbn. repeat split; auto.
  - intros id r H. exists r. auto.
  - intros id h0 H. now apply nth_error_snoc.
  - exists [CallAddEventListener (List.length (motionHandlers w))]. auto.
Qed.

Lemma StillHeld_pushStream (s : MediaStream) : Along StillHeld (pushStream s).
Proof.
  intros w. unfold StillHeld. cbn. repeat split; auto.
  - intros id r H. exists r. auto.
  - intros id s0 H. now apply nth_error_snoc.
  - exists []. now rewrite app_nil_r.
Qed.

(** C3, as the code has it. Start lets go of nothing, whatever the world it is
    called in: every recognition that was started is still started, every
    motion listener that was attached is still attached, every stream keeps
    its tracks as they were, and the host calls start makes are starts and
    registrations only. A start during an active session therefore adds its
    channels to those already running. *)
Theorem start_releases_nothing (env : Render) (o : Oracle) (w : World) :
  StillHeld w (fst (complete o (startBackgroundDetection env) w)).
Proof.
  apply Uses_complete.
  - apply StillHeld_refl.
  - apply StillHeld_trans.
  - apply startBackgroundDetection_uses;
      auto using StillHeld_pushRecognition, StillHeld_recognition_start,
                 StillHeld_addEventListener, StillHeld_pushStream;
      intros; apply StillHeld_state; reflexivity.
Qed.

(** C3, the claim as stated, fails: after a second start in an active session
    two recognitions run, two motion listeners are attached and two streams
    are live; two registrations were made and no deregistration. The refs
    track the second session's handles only, so that a stop afterwards leaves
    the first session's recognition started, its listener attached and its
    track live. *)
Lemma second_start_leaks_first_session :
  st_isBackgroundActive startedOnce = true /\
  isBackgroundActive (render (Some allEnabled) startedOnce) = true /\
  map rec_started (recognitions startedTwice) = [true; true] /\
  map attached (motionHandlers startedTwice) = [true; true] /\
  map tracks (streams startedTwice) = [[true]; [true]] /\
  calls startedTwice = [CallRecognitionStart 0; CallAddEventListener 0;
                        CallRecognitionStart 1; CallAddEventListener 1] /\
  registrations startedTwice = 2 /\
  deregistrations startedTwice = 0 /\
  (speechRecognitionRef startedTwice, motionListenerRef startedTwice,
   videoStreamRef startedTwice) = (Some 1, Some 1, Some 1) /\
  map rec_started (recognitions (stopBackgroundDetection startedTwice)) = [true; false] /\
  map attached (motionHandlers (stopBackgroundDetection startedTwice)) = [true; false] /\
  map tracks (streams (stopBackgroundDetection startedTwice)) = [[true]; [false]] /\
  registrations (stopBackgroundDetection startedTwice) = 2 /\
  deregistrations (stopBackgroundDetection startedTwice) = 1.
Proof. repeat split. Qed.


(** ** The supervisor: stop *)

Lemma stopAll_all_ended (s : MediaStream) : forallb negb (tracks (stopAll s)) = true.
Proof.
  unfold stopAll. cbn. induction (tracks s) as [|t ts IH]; cbn; auto.
Qed.

Lemma stop_clears_state (w : World) :
  st_isBackgroundActive (stopBackgroundDetection w) = false /\
  st_detectionStatus (stopBackgroundDetection w) = allFalse /\
  speechRecognitionRef (stopBackgroundDetection w) = None /\
  motionListenerRef (stopBackgroundDetection w) = None /\
  videoStreamRef (stopBackgroundDetection w) = None.
Proof.
  unfold stopBackgroundDetection, stopCamera, stopMotion, stopVoice.
  destruct w as [a d [v|] [m|] [c|] rs hs ss ts cp tt n cl]; cbn; repeat split.
Qed.

Lemma stop_lets_go_of_tracked (w : World) :
  (forall id r, speechRecognitionRef w = Some id ->
      nth_error (recognitions (stopBackgroundDetection w)) id = Some r ->
      rec_started r = false) /\
  (forall id h, motionListenerRef w = Some id ->
      nth_error (motionHandlers (stopBackgroundDetection w)) id = Some h ->
      attached h = false) /\
  (forall id s, videoStreamRef w = Some id ->
      nth_error (streams (stopBackgroundDetection w)) id = Some s ->
      forallb negb (tracks s) = true).
Proof.
  unfold stopBackgroundDetection, stopCamera, stopMotion, stopVoice.
  destruct w as [a d [v|] [m|] [c|] rs hs ss ts cp tt n cl].
  all: split; [|split].
  all: intros id x Href; cbn in Href; try discriminate.
  all: injection Href as ->.
  all: cbn [recognitions motionHandlers streams toast set_toasts
            set_st_detectionStatus set_videoStreamRef set_motionListenerRef
            set_speechRecognitionRef stopTracks removeEventListener
            recognition_stop logCall set_calls set_streams set_motionHandlers
            set_recognitions set_st_isBackgroundActive videoStreamRef
            motionListenerRef speechRecognitionRef].
  all: rewrite nth_error_update_nth, Nat.eqb_refl.
  all: destruct (nth_error _ id); cbn [option_map]; [|discriminate].
  all: intros H; injection H as <-; auto using stopAll_all_ended.
Qed.

Lemma stop_twice (w : World) :
  stopBackgroundDetection (stopBackgroundDetection w)
  = toast detectionStopped (stopBackgroundDetection w).
Proof.
  unfold stopBackgroundDetection, stopCamera, stopMotion, stopVoice.
  destruct w as [a d [v|] [m|] [c|] rs hs ss ts cp tt n cl];
    vm_compute; reflexivity.
Qed.

Lemma nth_error_last {A : Type} (l : list A) (x : A) :
  nth_error (l ++ [x]) (List.length l) = Some x.
Proof.
  rewrite nth_error_app2, Nat.sub_diag; auto.
Qed.

(** A camera start waits for [getUserMedia] having changed nothing; when the
    promise is fulfilled, in whatever world [w'] that happens, the stream is
    stored and the channel reports success. *)
Lemma camera_completion_always_starts (b : bool) (s : DetectionSettings)
    (w w' : World) (a : Settled PermissionState) (n : nat) :
  blinkEnabled s || gestureEnabled s = true ->
  mediaDevices (caps w) = true ->
  let p := run (startCameraDetection {| isBackgroundActive := b; settings := Some s |}) w in
  let q := settle (host a (Fulfilled n)) (snd p) w' in
  fst p = w /\ pendingOn (snd p) = Some GetUserMedia /\
  snd q = Done true /\
  videoStreamRef (fst q) = Some (List.length (streams w')) /\
  nth_error (streams (fst q)) (List.length (streams w')) = Some (liveStream n).
Proof.
  intros Hc Hm p q. subst p q. unfold startCameraDetection, optFlag.
  cbn [settings].
  assert (E : negb (blinkEnabled s) && negb (gestureEnabled s) = false)
    by (destruct (blinkEnabled s), (gestureEnabled s); auto; discriminate).
  rewrite E. cbn [bind get run]. rewrite Hm.
  cbn [negb bind await run fst snd pendingOn settle host get act].
  repeat split. cbn [streams pushStream set_videoStreamRef set_streams].
  apply nth_error_last.
Qed.

(** The same for a motion start waiting for the permission: once granted, in
    whatever world, the listener is attached. *)
Lemma motion_completion_always_starts (b : bool) (s : DetectionSettings)
    (w w' : World) (c : Settled nat) :
  motionEnabled s = true ->
  motionRequestPermission (caps w) = true ->
  let p := run (startMotionDetection {| isBackgroundActive := b; settings := Some s |}) w in
  let q := settle (host (Fulfilled Granted) c) (snd p) w' in
  fst p = w /\ pendingOn (snd p) = Some RequestMotionPermission /\
  snd q = Done true /\
  motionListenerRef (fst q) = Some (List.length (motionHandlers w')) /\
  nth_error (motionHandlers (fst q)) (List.length (motionHandlers w'))
  = Some {| lastShakeTime := 0; shakeThreshold := thresholdOf s; attached := true |}.
Proof.
  intros He Hm p q. subst p q. unfold startMotionDetection, attachMotion, optFlag.
  cbn [settings]. rewrite He. cbn [negb bind get run]. rewrite Hm.
  cbn [negb bind await run fst snd pendingOn settle host get act].
  repeat split.
  cbn [motionHandlers addEventListener set_motionListenerRef logCall set_calls
       set_motionHandlers].
  apply nth_error_last.
Qed.

(** C4, as the code has it. Stop is defined in every world; when it returns
    the three refs are empty, the recognition that was tracked is stopped,
    the listener that was tracked is detached and every track of the stream
    that was tracked is ended. Stop cancels nothing that is pending: a camera
    or motion start that was waiting for its grant and gets it after the stop
    stores the stream, or attaches the listener, all the same. *)
Theorem stop_releases_tracked_and_cancels_nothing :
  (forall w : World,
      let w' := stopBackgroundDetection w in
      speechRecognitionRef w' = None /\
      motionListenerRef w' = None /\
      videoStreamRef w' = None /\
      (forall id r, speechRecognitionRef w = Some id ->
          nth_error (recognitions w') id = Some r -> rec_started r = false) /\
      (forall id h, motionListenerRef w = Some id ->
          nth_error (motionHandlers w') id = Some h -> attached h = false) /\
      (forall id s, videoStreamRef w = Some id ->
          nth_error (streams w') id = Some s -> forallb negb (tracks s) = true))
  /\
  (forall (b : bool) (s : DetectionSettings) (w : World)
          (a : Settled PermissionState) (n : nat),
      blinkEnabled s || gestureEnabled s = true ->
      mediaDevices (caps w) = true ->
      let p := run (startCameraDetection
                      {| isBackgroundActive := b; settings := Some s |}) w in
      let stopped := stopBackgroundDetection (fst p) in
      let q := settle (host a (Fulfilled n)) (snd p) stopped in
      pendingOn (snd p) = Some GetUserMedia /\
      videoStreamRef stopped = None /\
      snd q = Done true /\
      videoStreamRef (fst q) = Some (List.length (streams stopped)) /\
      nth_error (streams (fst q)) (List.length (streams stopped))
      = Some {| tracks := repeat true n |})
  /\
  (forall (b : bool) (s : DetectionSettings) (w : World) (c : Settled nat),
      motionEnabled s = true ->
      motionRequestPermission (caps w) = true ->
      let p := run (startMotionDetection
                      {| isBackgroundActive := b; settings := Some s |}) w in
      let stopped := stopBackgroundDetection (fst p) in
      let q := settle (host (Fulfilled Granted) c) (snd p) stopped in
      pendingOn (snd p) = Some RequestMotionPermission /\
      motionListenerRef stopped = None /\
      snd q = Done true /\
      motionListenerRef (fst q) = Some (List.length (motionHandlers stopped)) /\
      nth_error (motionHandlers (fst q)) (List.length (motionHandlers stopped))
      = Some {| lastShakeTime := 0;
                shakeThreshold := (100 - motionSensitivity s) / 10;
                attached := true |}).
Proof.
  split; [|split].
  - intros w w'. subst w'.
    destruct (stop_clears_state w) as (_ & _ & R1 & R2 & R3).
    destruct (stop_lets_go_of_tracked w) as (T1 & T2 & T3).
    repeat split; auto.
  - intros b s w a n Hc Hm p stopped q.
    destruct (camera_completion_always_starts b s w stopped a n Hc Hm)
      as (E & P & D & V & S).
    fold p in E, P. fold p q in D, V, S.
    repeat split; auto.
    apply (stop_clears_state (fst p)).
  - intros b s w c He Hm p stopped q.
    destruct (motion_completion_always_starts b s w stopped c He Hm)
      as (E & P & D & V & S).
    fold p in E, P. fold p q in D, V, S.
    repeat split; auto.
    apply (stop_clears_state (fst p)).
Qed.

Lemma stop_releases_tracked_and_cancels_nothing_witness :
  blinkEnabled allEnabled || gestureEnabled allEnabled = true /\
  mediaDevices (caps (mount fullCaps)) = true /\
  videoStreamRef
    (fst (settle (host (Fulfilled Granted) (Fulfilled 1))
            (snd (run (startCameraDetection
                         {| isBackgroundActive := false; settings := Some allEnabled |})
                      (mount fullCaps)))
            (stopBackgroundDetection
               (fst (run (startCameraDetection
                            {| isBackgroundActive := false;
                               settings := Some allEnabled |})
                         (mount fullCaps))))))
  = Some 0.
Proof.
  split; [reflexivity | split; [reflexivity |]].
  exact (proj1 (proj2 (proj2 (proj2
           (proj1 (proj2 stop_releases_tracked_and_cancels_nothing)
              false allEnabled (mount fullCaps) (Fulfilled Granted) 1
              eq_refl eq_refl))))).
Defined.

(** C4, the claim as stated, fails: a start is waiting for the motion grant
    when stop is called; stop returns with the session inactive and nothing
    tracked. The grant then attaches the motion listener, the camera grant
    after it stores a live stream, and the status is published as all-true.
    The session is inactive, yet a shake now reaches the emergency
    callback. *)
Lemma stale_grant_starts_channels_after_stop :
  pendingOn (snd pendingStart) = Some RequestMotionPermission /\
  st_isBackgroundActive stoppedMeanwhile = false /\
  map rec_started (recognitions stoppedMeanwhile) = [false] /\
  motionHandlers stoppedMeanwhile = [] /\
  streams stoppedMeanwhile = [] /\
  map attached (motionHandlers (fst afterMotionGrant)) = [true] /\
  motionListenerRef (fst afterMotionGrant) = Some 0 /\
  pendingOn (snd afterMotionGrant) = Some GetUserMedia /\
  map tracks (streams (fst afterCameraGrant)) = [[true]] /\
  videoStreamRef (fst afterCameraGrant) = Some 0 /\
  st_isBackgroundActive (fst afterCameraGrant) = false /\
  st_detectionStatus (fst afterCameraGrant)
  = {| voice := true; motion := true; camera := true |} /\
  emergencyCalls (fst afterCameraGrant) = 0 /\
  emergencyCalls (deliverMotion shake5 1700000000000 (fst afterCameraGrant)) = 1.
Proof. repeat split. Qed.

(** C6, as the code has it. Stop is defined in every world and leaves the
    session inactive, the status all-false and the refs empty, having stopped
    the tracked recognition, detached the tracked listener and ended the
    tracks of the tracked stream whether or not they were running. A second
    stop, or a stop on a hook that never started, touches no channel, ref or
    host object and makes no host call: all it does is show the "Background
    Detection Stopped" toast once more. *)
Theorem stop_tears_down_and_repeats_only_its_toast :
  (forall w : World,
      let w' := stopBackgroundDetection w in
      st_detectionStatus w' = {| voice := false; motion := false; camera := false |} /\
      st_isBackgroundActive w' = false /\
      (speechRecognitionRef w', motionListenerRef w', videoStreamRef w')
      = (None, None, None) /\
      (forall id r, speechRecognitionRef w = Some id ->
          nth_error (recognitions w') id = Some r -> rec_started r = false) /\
      (forall id h, motionListenerRef w = Some id ->
          nth_error (motionHandlers w') id = Some h -> attached h = false) /\
      (forall id s, videoStreamRef w = Some id ->
          nth_error (streams w') id = Some s -> forallb negb (tracks s) = true))
  /\
  (forall w : World,
      let w1 := stopBackgroundDetection w in
      let w2 := stopBackgroundDetection w1 in
      w2 = set_toasts (toasts w1 ++ [detectionStopped]) w1 /\
      st_detectionStatus w2 = {| voice := false; motion := false; camera := false |})
  /\
  (forall c : Capabilities,
      let w' := stopBackgroundDetection (mount c) in
      w' = set_toasts [detectionStopped] (mount c) /\
      st_detectionStatus w' = {| voice := false; motion := false; camera := false |}).
Proof.
  split; [|split].
  - intros w w'. subst w'.
    destruct (stop_clears_state w) as (A & D & R1 & R2 & R3).
    destruct (stop_lets_go_of_tracked w) as (T1 & T2 & T3).
    rewrite R1, R2, R3. repeat split; auto.
  - intros w w1 w2. subst w1 w2. split.
    + apply stop_twice.
    + apply stop_clears_state.
  - intros c. cbv zeta. split; reflexivity.
Qed.

Lemma stop_tears_down_and_repeats_only_its_toast_witness :
  speechRecognitionRef startedOnce = Some 0 /\
  nth_error (recognitions (stopBackgroundDetection startedOnce)) 0
  = Some (markStarted false
            (newRecognition (render (Some allEnabled) (mount fullCaps)))) /\
  rec_started (markStarted false
                 (newRecognition (render (Some allEnabled) (mount fullCaps)))) = false.
Proof.
  split; [reflexivity | split; [reflexivity |]].
  exact (proj1 (proj2 (proj2 (proj2
           (proj1 stop_tears_down_and_repeats_only_its_toast startedOnce))))
           0 _ eq_refl eq_refl).
Defined.

(** C6, the claim as stated, fails: a stop before any start is not a no-op,
    and neither is a second stop in a row; each shows a toast. *)
Lemma redundant_stop_still_toasts :
  toasts (mount fullCaps) = [] /\
  toasts (stopBackgroundDetection (mount fullCaps)) = [detectionStopped] /\
  stopBackgroundDetection (mount fullCaps) <> mount fullCaps /\
  toasts (stopBackgroundDetection (stopBackgroundDetection (mount fullCaps)))
  = [detectionStopped; detectionStopped] /\
  stopBackgroundDetection (stopBackgroundDetection (mount fullCaps))
  <> stopBackgroundDetection (mount fullCaps).
Proof.
  repeat split; try reflexivity; intros H; apply (f_equal toasts) in H;
    vm_compute in H; discriminate.
Qed.

(** ** Voice channel: restart after the engine ends *)

Lemma Forall_update_nth {A : Type} (P : A -> Prop) (f : A -> A) (l : list A) (i : nat) :
  (forall x, P x -> P (f x)) -> Forall P l -> Forall P (update_nth i f l).
Proof.
  intros Hf H. revert i. induction H as [|x l Hx Hl IH]; intros [|i]; simpl;
    constructor; auto.
Qed.

Lemma NeverRestarts_state (f : World -> World) :
  (forall w, recognitions (f w) = recognitions w) ->
  (forall w, timers (f w) = timers w) ->
  Along (fun w w' => NeverRestarts w -> NeverRestarts w') f.
Proof.
  intros R T w. unfold NeverRestarts. now rewrite R, T.
Qed.

Lemma firstSession_never_restarts (c : Capabilities) (s : DetectionSettings) (o : Oracle) :
  NeverRestarts (firstSession c s o).
Proof.
  unfold firstSession.
  apply (Uses_complete (R := fun w w' => NeverRestarts w -> NeverRestarts w') o).
  - auto.
  - auto.
  - apply startBackgroundDetection_uses;
      try (intros; apply NeverRestarts_state; reflexivity).
    + intros w [F T]. split; [|exact T]. cbn. apply Forall_app. split; auto.
    + intros id w [F T]. split; [|exact T]. cbn.
      apply Forall_update_nth; auto.
  - split; constructor.
Qed.

Lemma deliverEnd_without_restart (id : nat) (w : World) :
  NeverRestarts w -> timers (deliverEnd id w) = [].
Proof.
  intros [F T]. unfold deliverEnd.
  destruct (nth_error (recognitions w) id) as [r|] eqn:E; [|exact T].
  unfold onend.
  assert (H : isBackgroundActive (rec_env r) = false).
  { rewrite Forall_forall in F. apply F. eapply nth_error_In; eauto. }
  rewrite H. exact T.
Qed.

(** Neither the end of the engine nor the restart timer calls the emergency
    callback. *)
Lemma voice_restart_keeps_callback (id : nat) (w : World) :
  emergencyCalls (deliverEnd id w) = emergencyCalls w /\
  emergencyCalls (timerFires w) = emergencyCalls w.
Proof.
  split.
  - unfold deliverEnd, onend. destruct (nth_error (recognitions w) id); auto.
    destruct (_ && _); reflexivity.
  - unfold timerFires, restartRecognition. destruct (timers w) as [|t ts]; auto.
    cbn. destruct (nth_error (recognitions w) (restarts t)) as [r|]; auto.
    destruct (rec_started r); reflexivity.
Qed.

(** The restart as written: started from a render that already sees an
    active session, the recognition schedules its restart, 1000 ms later. *)
Example voice_restart_from_active_render :
  let w := deliverEnd 1 startedTwice in
  map rec_started (recognitions w) = [true; false] /\
  timers w = [{| delay := 1000; restarts := 1 |}] /\
  map rec_started (recognitions (timerFires w)) = [true; true] /\
  emergencyCalls (timerFires w) = 0.
Proof. repeat split. Qed.

(** C5, the code at the failing input. In the first session of a hook the
    recognition's [onend] closes over the render that called start, in which
    [isBackgroundActive] is still [false]: start has marked the session active
    and, when the engine ends, no restart is scheduled, for any host, any
    settings and any recognition. On a full host with voice enabled the
    recognition runs, the engine ends, and the recognition stays ended. *)
Theorem first_session_voice_end_schedules_no_restart :
  (forall (c : Capabilities) (s : DetectionSettings) (o : Oracle) (id : nat),
      let w1 := firstSession c s o in
      st_isBackgroundActive w1 = true /\
      timers (deliverEnd id w1) = [] /\
      timerFires (deliverEnd id w1) = deliverEnd id w1)
  /\
  (let w1 := firstSession fullCaps scenarioSettings grantAll in
   let w2 := deliverEnd 0 w1 in
   st_isBackgroundActive w1 = true /\
   voice (st_detectionStatus w1) = true /\
   map rec_started (recognitions w1) = [true] /\
   map rec_started (recognitions w2) = [false] /\
   timers w2 = [] /\
   map rec_started (recognitions (timerFires w2)) = [false]).
Proof.
  split.
  - intros c s o id w1.
    assert (T : timers (deliverEnd id w1) = [])
      by (apply deliverEnd_without_restart, firstSession_never_restarts).
    repeat split; auto.
    + apply start_marks_active.
    + unfold timerFires. now rewrite T.
  - repeat split.
Qed.

(** ** The service worker *)




(** ** The scenario of a whole session *)

(** Voice and motion enabled on a host that grants both: start publishes
    voice and motion, no camera; the transcript "please help me" calls the
    emergency callback exactly once. *)
Example scenario_voice_and_motion :
  let w := firstSession fullCaps scenarioSettings grantAll in
  st_detectionStatus w = {| voice := true; motion := true; camera := false |} /\
  registrations w = 1 /\
  emergencyCalls w = 0 /\
  emergencyCalls (deliverResult 0 (heard "please help me") w) = 1.
Proof. repeat split. Qed.

(** With every modality off nothing is registered. *)
Example scenario_all_disabled :
  let w := firstSession fullCaps (allDisabled 70 60 []) grantAll in
  st_detectionStatus w = allFalse /\ registrations w = 0 /\ calls w = [].
Proof. repeat split. Qed.

(* ================================================================== *)
(** * Further properties of the hook *)

(** ** Motion: the debounce over a stream of samples *)

Lemma handleMotion_last (h : MotionHandler) (event : DeviceMotionEvent) (now : Z) :
  (snd (handleMotion h event now) = true /\
   (2000 < now - lastShakeTime h)%Z /\
   lastShakeTime (fst (handleMotion h event now)) = now)
  \/
  (snd (handleMotion h event now) = false /\ fst (handleMotion h event now) = h).
Proof.
  unfold handleMotion. destruct (acceleration event) as [a|]; [|now right].
  destruct (PrimFloat.ltb _ _); [|now right].
  destruct (Z.gtb_spec (now - lastShakeTime h) 2000); [left | now right].
  repeat split; auto.
Qed.

Lemma last_cons_default {A : Type} (t d : A) (rest : list A) :
  List.last (t :: rest) d = List.last rest t.
Proof.
  revert t d. induction rest as [|x rest IH]; intros t d; [reflexivity|].
  change (List.last (t :: x :: rest) d) with (List.last (x :: rest) d).
  rewrite (IH x d), (IH x t). reflexivity.
Qed.

Lemma Spaced_span (last : Z) (times : list Z) :
  Spaced last times ->
  (2000 * Z.of_nat (List.length times) <= List.last times last - last)%Z.
Proof.
  revert last. induction times as [|t rest IH]; intros l H.
  - simpl. lia.
  - destruct H as [Ht Hrest]. specialize (IH t Hrest).
    rewrite last_cons_default. cbn [List.length]. lia.
Qed.

(** X1. However the samples come and whatever the clock reads, two consecutive
    triggers of one motion listener are more than 2000 ms apart, the first
    one more than 2000 ms after the listener's initial reading; so n triggers
    span at least 2000 n ms, and the listener ends up remembering the last
    trigger. *)
Theorem motion_triggers_are_spaced
    (h : MotionHandler) (samples : list (DeviceMotionEvent * Z)) :
  let times := snd (feed h samples) in
  Spaced (lastShakeTime h) times /\
  (2000 * Z.of_nat (List.length times)
   <= List.last times (lastShakeTime h) - lastShakeTime h)%Z /\
  lastShakeTime (fst (feed h samples)) = List.last times (lastShakeTime h) /\
  shakeThreshold (fst (feed h samples)) = shakeThreshold h.
Proof.
  cbv zeta.
  assert (H : Spaced (lastShakeTime h) (snd (feed h samples)) /\
              lastShakeTime (fst (feed h samples))
              = List.last (snd (feed h samples)) (lastShakeTime h) /\
              shakeThreshold (fst (feed h samples)) = shakeThreshold h).
  { revert h. induction samples as [|[event now] rest IH]; intros h.
    - simpl. auto.
    - cbn [feed].
      destruct (handleMotion_last h event now) as [(F & G & L) | (F & E)];
        destruct (handleMotion h event now) as [h1 fired] eqn:Eh;
        cbn [fst snd] in *; subst fired;
        specialize (IH h1); destruct (feed h1 rest) as [h2 times] eqn:Ef;
        cbn [fst snd] in *; destruct IH as (S1 & S2 & S3).
      + assert (T : shakeThreshold h1 = shakeThreshold h).
        { assert (Q := f_equal fst Eh). cbn [fst] in Q. rewrite <- Q.
          unfold handleMotion. destruct (acceleration event); [|reflexivity].
          destruct (PrimFloat.ltb _ _); [|reflexivity].
          destruct (_ >? _)%Z; reflexivity. }
        rewrite L in S1, S2. repeat split; auto.
        * rewrite S2. symmetry. apply last_cons_default.
        * congruence.
      + subst h1. auto. }
  destruct H as (S1 & S2 & S3). repeat split; auto.
  apply Spaced_span; auto.
Qed.

Lemma dispatchMotion_bounds (event : DeviceMotionEvent) (now : Z) (hs : list MotionHandler) :
  snd (dispatchMotion event now hs)
  <= List.length (filter attached hs) /\
  map attached (fst (dispatchMotion event now hs)) = map attached hs /\
  map shakeThreshold (fst (dispatchMotion event now hs)) = map shakeThreshold hs.
Proof.
  induction hs as [|h rest IH]; [simpl; auto|].
  cbn [dispatchMotion]. destruct (dispatchMotion event now rest) as [rest' n].
  cbn [fst snd] in IH. destruct IH as (I1 & I2 & I3).
  destruct (attached h) eqn:A.
  - assert (Hh : attached (fst (handleMotion h event now)) = attached h /\
                 shakeThreshold (fst (handleMotion h event now)) = shakeThreshold h).
    { unfold handleMotion. destruct (acceleration event); [|auto].
      destruct (PrimFloat.ltb _ _); [|auto]. destruct (_ >? _)%Z; auto. }
    destruct (handleMotion h event now) as [h' fired]. cbn [fst snd] in *.
    destruct Hh as [Ha Ht].
    cbn [filter map List.length]. rewrite A. cbn [List.length map].
    rewrite I2, I3, Ha, Ht, A. destruct fired; repeat split; auto; lia.
  - cbn [fst snd filter map]. rewrite A, I2, I3. auto.
Qed.

(** X2. A [devicemotion] event calls the emergency callback at most once per
    listener still attached, and not at all when none is; it detaches
    nothing, attaches nothing and leaves every threshold as it was. *)
Theorem motion_event_fires_at_most_once_per_listener
    (event : DeviceMotionEvent) (now : Z) (w : World) :
  let w' := deliverMotion event now w in
  emergencyCalls w <= emergencyCalls w'
  <= emergencyCalls w + List.length (filter attached (motionHandlers w)) /\
  map attached (motionHandlers w') = map attached (motionHandlers w) /\
  map shakeThreshold (motionHandlers w') = map shakeThreshold (motionHandlers w) /\
  st_detectionStatus w' = st_detectionStatus w /\
  calls w' = calls w.
Proof.
  cbv zeta. unfold deliverMotion.
  destruct (dispatchMotion_bounds event now (motionHandlers w)) as (B1 & B2 & B3).
  destruct (dispatchMotion event now (motionHandlers w)) as [hs n].
  cbn [fst snd] in *. cbn. repeat split; auto; lia.
Qed.

(** ** Channels and the refs that track them *)

Lemma uses_frame {X A : Type} (proj : World -> X) (o : Oracle) (p : Async A) (w : World) :
  Uses (fun f => forall w, proj (f w) = proj w) p ->
  proj (fst (complete o p w)) = proj w.
Proof.
  intros H.
  apply (Uses_complete (R := fun w w' => proj w' = proj w) o); auto.
  intros w1 w2 w3 H1 H2. congruence.
Qed.

Lemma update_nth_last {A : Type} (f : A -> A) (l : list A) (x : A) :
  update_nth (List.length l) f (l ++ [x]) = l ++ [f x].
Proof.
  induction l as [|y l IH]; simpl; [reflexivity | now rewrite IH].
Qed.

Lemma voice_outcome (env : Render) (o : Oracle) (w : World) :
  VoiceOutcome env w (fst (complete o (startVoiceDetection env) w))
                     (snd (complete o (startVoiceDetection env) w)).
Proof.
  unfold VoiceOutcome, startVoiceDetection. simpl.
  destruct (negb (optFlag voiceEnabled env) || negb (speechRecognitionInWindow (caps w)));
    simpl; [right; auto|].
  destruct (recognitionStartThrows (caps w)); simpl; [right; auto|].
  left. rewrite update_nth_last. auto.
Qed.

Lemma motion_outcome (b : bool) (s : DetectionSettings) (o : Oracle) (w : World) :
  let env := {| isBackgroundActive := b; settings := Some s |} in
  MotionOutcome s w (fst (complete o (startMotionDetection env) w))
                    (snd (complete o (startMotionDetection env) w)).
Proof.
  unfold MotionOutcome, startMotionDetection, attachMotion, optFlag. cbn [settings].
  destruct (motionEnabled s); simpl; [|right; auto].
  destruct (motionRequestPermission (caps w)); simpl; [|left; auto].
  destruct (o RequestMotionPermission) as [[|]|e]; simpl; [left | right | right]; auto.
Qed.

Lemma camera_outcome (env : Render) (o : Oracle) (w : World) :
  CameraOutcome w (fst (complete o (startCameraDetection env) w))
                  (snd (complete o (startCameraDetection env) w)).
Proof.
  unfold CameraOutcome, startCameraDetection.
  destruct (negb (optFlag blinkEnabled env) && negb (optFlag gestureEnabled env));
    simpl; [right; auto|].
  destruct (mediaDevices (caps w)); simpl; [|right; auto].
  destruct (o GetUserMedia) as [n|e]; simpl.
  - left. repeat split; auto. now exists n.
  - destruct (instanceofError e && String.eqb (err_name e) "NotAllowedError");
      simpl; right; auto.
Qed.

(** The projections of the world that each channel owns. *)
Lemma start_outcome (b : bool) (s : DetectionSettings) (o : Oracle) (w : World) :
  let env := {| isBackgroundActive := b; settings := Some s |} in
  let w' := fst (complete o (startBackgroundDetection env) w) in
  VoiceOutcome env w w' (voice (st_detectionStatus w')) /\
  MotionOutcome s w w' (motion (st_detectionStatus w')) /\
  CameraOutcome w w' (camera (st_detectionStatus w')).
Proof.
  intros env w'. subst w'.
  unfold startBackgroundDetection. cbn [settings env bind act].
  cbn [complete]. rewrite !complete_bind.
  set (w0 := set_st_isBackgroundActive true w).
  set (pv := if voiceEnabled s then startVoiceDetection env else Ret false).
  set (pm := if motionEnabled s then startMotionDetection env else Ret false).
  set (pc := if blinkEnabled s || gestureEnabled s
             then startCameraDetection env else Ret false).
  set (w1 := fst (complete o pv w0)). set (v := snd (complete o pv w0)).
  set (w2 := fst (complete o pm w1)). set (m := snd (complete o pm w1)).
  set (w3 := fst (complete o pc w2)). set (c := snd (complete o pc w2)).
  set (wf := fst _).
  pose (vp := fun x : World => (recognitions x, speechRecognitionRef x)).
  pose (mp := fun x : World => (motionHandlers x, motionListenerRef x)).
  pose (cp := fun x : World => (streams x, videoStreamRef x)).
  assert (Ef : st_detectionStatus wf = {| voice := v; motion := m; camera := c |}
               /\ vp wf = vp w3 /\ mp wf = mp w3 /\ cp wf = cp w3).
  { unfold wf. cbn. destruct (notificationDefault (caps w3)); cbn; auto. }
  destruct Ef as (Es & Fv & Fm & Fc).
  (* what each channel leaves alone *)
  assert (V2 : vp w2 = vp w1 /\ cp w2 = cp w1).
  { unfold w2, pm. destruct (motionEnabled s); [|auto]. split.
    - apply (uses_frame vp). apply startMotionDetection_uses; reflexivity.
    - apply (uses_frame cp). apply startMotionDetection_uses; reflexivity. }
  assert (V3 : vp w3 = vp w2 /\ mp w3 = mp w2).
  { unfold w3, pc. destruct (blinkEnabled s || gestureEnabled s); [|auto]. split.
    - apply (uses_frame vp). apply startCameraDetection_uses; reflexivity.
    - apply (uses_frame mp). apply startCameraDetection_uses; reflexivity. }
  assert (V1 : mp w1 = mp w /\ cp w1 = cp w).
  { unfold w1, pv. destruct (voiceEnabled s); [|auto]. split.
    - transitivity (mp w0); [|reflexivity].
      apply (uses_frame mp). apply startVoiceDetection_uses; reflexivity.
    - transitivity (cp w0); [|reflexivity].
      apply (uses_frame cp). apply startVoiceDetection_uses; reflexivity. }
  rewrite Es. cbn [voice motion camera].
  destruct V1 as [M1 C1], V2 as [V2 C2], V3 as [V3 M3].
  assert (Pv : vp wf = vp w1) by congruence.
  assert (Pm : mp wf = mp w2) by congruence.
  assert (Pc : cp wf = cp w3) by congruence.
  unfold vp in Pv. unfold mp in Pm, M1. unfold cp in Pc, C1, C2.
  injection Pv as Rv Sv. injection Pm as Rm Sm. injection Pc as Rc Sc.
  injection M1 as Mh Mr. injection C1 as Cs1 Cr1. injection C2 as Cs2 Cr2.
  split; [|split].
  - unfold VoiceOutcome. rewrite Rv, Sv. unfold w1, v, pv.
    destruct (voiceEnabled s).
    + apply (voice_outcome env o w0).
    + right. auto.
  - unfold MotionOutcome. rewrite Rm, Sm, <- Mh, <- Mr. unfold w2, m, pm.
    destruct (motionEnabled s).
    + apply (motion_outcome b s o w1).
    + right. auto.
  - unfold CameraOutcome. rewrite Rc, Sc, <- Cs1, <- Cr1, <- Cs2, <- Cr2.
    unfold w3, c, pc.
    destruct (blinkEnabled s || gestureEnabled s).
    + apply (camera_outcome env o w2).
    + right. auto.
Qed.

(** X3. When a start runs to completion with no other call of the hook
    between its awaits (every promise settles before any stop or second
    start), a flag it publishes as [true] is backed by a resource the refs
    track: for voice the ref points to a new recognition that is started and
    whose handlers close over the calling render; for motion to a new
    attached listener with last trigger 0 and the threshold of the settings;
    for the camera to a new stream with all its tracks live. A flag
    published as [false] leaves the channel's ref as it was. (With a stop
    between the awaits this fails, as [stale_status_after_interleaved_stop]
    shows.) *)
Theorem published_status_is_backed_by_tracked_resources
    (b : bool) (s : DetectionSettings) (o : Oracle) (w : World) :
  let env := {| isBackgroundActive := b; settings := Some s |} in
  let w' := fst (complete o (startBackgroundDetection env) w) in
  (if voice (st_detectionStatus w')
   then exists id, speechRecognitionRef w' = Some id /\
                   id = List.length (recognitions w) /\
                   nth_error (recognitions w') id
                   = Some (markStarted true (newRecognition env))
   else speechRecognitionRef w' = speechRecognitionRef w) /\
  (if motion (st_detectionStatus w')
   then exists id, motionListenerRef w' = Some id /\
                   id = List.length (motionHandlers w) /\
                   nth_error (motionHandlers w') id
                   = Some {| lastShakeTime := 0;
                             shakeThreshold := (100 - motionSensitivity s) / 10;
                             attached := true |}
   else motionListenerRef w' = motionListenerRef w /\
        motionHandlers w' = motionHandlers w) /\
  (if camera (st_detectionStatus w')
   then exists id n, videoStreamRef w' = Some id /\
                     id = List.length (streams w) /\
                     nth_error (streams w') id = Some {| tracks := repeat true n |}
   else videoStreamRef w' = videoStreamRef w /\ streams w' = streams w).
Proof.
  intros env w'. destruct (start_outcome b s o w) as (V & M & C).
  fold env w' in V, M, C. split; [|split].
  - destruct V as [(F & R & S) | (F & S & _)]; rewrite F; auto.
    eexists. split; [exact S|]. split; [reflexivity|].
    rewrite R. apply nth_error_last.
  - destruct M as [(F & R & S) | (F & R & S)]; rewrite F; auto.
    eexists. split; [exact S|]. split; [reflexivity|].
    rewrite R. apply nth_error_last.
  - destruct C as [(F & (n & R) & S) | (F & R & S)]; rewrite F; auto.
    eexists. exists n. split; [exact S|]. split; [reflexivity|].
    rewrite R. apply nth_error_last.
Qed.

(** ** Sessions from start to stop *)

Lemma stop_fields (w : World) :
  recognitions (stopBackgroundDetection w)
  = match speechRecognitionRef w with
    | Some id => update_nth id (markStarted false) (recognitions w)
    | None => recognitions w
    end /\
  motionHandlers (stopBackgroundDetection w)
  = match motionListenerRef w with
    | Some id => update_nth id detach (motionHandlers w)
    | None => motionHandlers w
    end /\
  streams (stopBackgroundDetection w)
  = match videoStreamRef w with
    | Some id => update_nth id stopAll (streams w)
    | None => streams w
    end /\
  timers (stopBackgroundDetection w) = timers w /\
  emergencyCalls (stopBackgroundDetection w) = emergencyCalls w /\
  caps (stopBackgroundDetection w) = caps w.
Proof.
  unfold stopBackgroundDetection, stopCamera, stopMotion, stopVoice.
  destruct w as [a d [v|] [m|] [c|] rs hs ss ts cp tt n cl];
    repeat split; vm_compute; reflexivity.
Qed.

Lemma Forall_by_index {A : Type} (P : A -> Prop) (l : list A) :
  (forall i x, nth_error l i = Some x -> P x) -> Forall P l.
Proof.
  intros H. apply Forall_forall. intros x Hin.
  destruct (In_nth_error l x Hin) as [i Hi]. eauto.
Qed.

Lemma released_by_index {A : Type} (P : A -> Prop) (release : A -> A)
    (l : list A) (ref : option nat) :
  (forall x, P x \/ ~ P x) ->
  (forall x, P (release x)) ->
  (forall i x, nth_error l i = Some x -> ~ P x -> ref = Some i) ->
  Forall P (match ref with
            | Some id => update_nth id release l
            | None => l
            end).
Proof.
  intros Hdec Hrel Htracked. apply Forall_by_index. intros i x Hx.
  destruct ref as [id|].
  - rewrite nth_error_update_nth in Hx.
    destruct (Nat.eqb_spec id i) as [->|Hne].
    + destruct (nth_error l i); [|discriminate]. injection Hx as <-. apply Hrel.
    + destruct (Hdec x) as [Hp|Hn]; [exact Hp|].
      specialize (Htracked i x Hx Hn). congruence.
  - destruct (Hdec x) as [Hp|Hn]; [exact Hp|].
    specialize (Htracked i x Hx Hn). discriminate.
Qed.

Lemma bool_false_or_not (b : bool) : b = false \/ b <> false.
Proof. destruct b; [right; discriminate | now left]. Qed.

Lemma stop_releases_what_is_tracked (w : World) :
  HeldIsTracked w -> NothingHeld (stopBackgroundDetection w).
Proof.
  intros (V & M & C). destruct (stop_fields w) as (R & H & S & _).
  unfold NothingHeld. rewrite R, H, S. repeat split.
  - apply released_by_index; auto using bool_false_or_not.
    intros i r Hr Hn. apply (V i r Hr). now destruct (rec_started r).
  - apply released_by_index; auto using bool_false_or_not.
    intros i h Hh Hn. apply (M i h Hh). now destruct (attached h).
  - apply released_by_index; auto using stopAll_all_ended.
    + intros s. destruct (forallb negb (tracks s)); [now left | right; discriminate].
    + intros i s Hs Hn. apply (C i s Hs). now destruct (forallb negb (tracks s)).
Qed.

Lemma Forall_nth_error_of {A : Type} (P : A -> Prop) (l : list A) (i : nat) (x : A) :
  Forall P l -> nth_error l i = Some x -> P x.
Proof.
  intros F H. rewrite Forall_forall in F. apply F. eapply nth_error_In; eauto.
Qed.

Lemma nth_error_snoc_inv {A : Type} (l : list A) (y x : A) (i : nat) :
  nth_error (l ++ [y]) i = Some x ->
  nth_error l i = Some x \/ (i = List.length l /\ x = y).
Proof.
  intros H. destruct (Nat.lt_ge_cases i (List.length l)) as [Hlt|Hge].
  - left. now rewrite nth_error_app1 in H.
  - right. rewrite nth_error_app2 in H by exact Hge.
    destruct (i - List.length l) as [|k] eqn:E.
    + cbn in H. injection H as <-. split; [lia | reflexivity].
    + cbn in H. destruct k; discriminate.
Qed.

Lemma start_tracks_what_it_holds (env : Render) (o : Oracle) (w : World) :
  NothingHeld w ->
  HeldIsTracked (fst (complete o (startBackgroundDetection env) w)).
Proof.
  intros (V & M & C). destruct env as [b [s|]].
  - destruct (start_outcome b s o w) as (Vo & Mo & Co).
    cbv zeta in Vo, Mo, Co.
    set (w' := fst _) in *. unfold HeldIsTracked. repeat split.
    + intros id r Hr Hs.
      destruct Vo as [(_ & R & S) | (_ & _ & [R|R])]; rewrite R in Hr.
      * destruct (nth_error_snoc_inv _ _ _ Hr) as [Hold | [-> _]].
        -- pose proof (@Forall_nth_error_of _ _ _ _ _ V Hold) as F. cbn in F. congruence.
        -- exact S.
      * pose proof (@Forall_nth_error_of _ _ _ _ _ V Hr) as F. cbn in F. congruence.
      * destruct (nth_error_snoc_inv _ _ _ Hr) as [Hold | [_ ->]].
        -- pose proof (@Forall_nth_error_of _ _ _ _ _ V Hold) as F. cbn in F. congruence.
        -- discriminate.
    + intros id h Hh Ha.
      destruct Mo as [(_ & R & S) | (_ & R & _)]; rewrite R in Hh.
      * destruct (nth_error_snoc_inv _ _ _ Hh) as [Hold | [-> _]].
        -- pose proof (@Forall_nth_error_of _ _ _ _ _ M Hold) as F. cbn in F. congruence.
        -- exact S.
      * pose proof (@Forall_nth_error_of _ _ _ _ _ M Hh) as F. cbn in F. congruence.
    + intros id st Hst Hl.
      destruct Co as [(_ & (n & R) & S) | (_ & R & _)]; rewrite R in Hst.
      * destruct (nth_error_snoc_inv _ _ _ Hst) as [Hold | [-> _]].
        -- pose proof (@Forall_nth_error_of _ _ _ _ _ C Hold) as F. cbn in F. congruence.
        -- exact S.
      * pose proof (@Forall_nth_error_of _ _ _ _ _ C Hst) as F. cbn in F. congruence.
  - unfold HeldIsTracked. cbn. repeat split.
    + intros id r Hr Hs.
      pose proof (@Forall_nth_error_of _ _ _ _ _ V Hr) as F. cbn in F. congruence.
    + intros id h Hh Ha.
      pose proof (@Forall_nth_error_of _ _ _ _ _ M Hh) as F. cbn in F. congruence.
    + intros id st Hst Hl.
      pose proof (@Forall_nth_error_of _ _ _ _ _ C Hst) as F. cbn in F. congruence.
Qed.

Lemma start_from_inactive_render_never_restarts
    (env : Render) (o : Oracle) (w : World) :
  isBackgroundActive env = false ->
  NeverRestarts w ->
  NeverRestarts (fst (complete o (startBackgroundDetection env) w)).
Proof.
  intros He.
  apply (Uses_complete (R := fun w w' => NeverRestarts w -> NeverRestarts w') o).
  - auto.
  - auto.
  - apply startBackgroundDetection_uses;
      try (intros; apply NeverRestarts_state; reflexivity).
    + intros x [F T]. split; [|exact T]. cbn. apply Forall_app. split; auto.
    + intros id x [F T]. split; [|exact T]. cbn.
      apply Forall_update_nth; auto.
Qed.

Lemma Forall_attached_of_map (hs hs' : list MotionHandler) :
  map attached hs' = map attached hs ->
  Forall (fun h => attached h = false) hs ->
  Forall (fun h => attached h = false) hs'.
Proof.
  revert hs'. induction hs as [|h hs IH]; intros [|h' hs'] E F; try discriminate.
  - constructor.
  - cbn in E. injection E as E1 E2. inversion F; subst.
    constructor; [congruence | auto].
Qed.

(** The hook at rest: inactive, nothing held, no restart timer pending, and
    no recognition whose handlers close over an active render. *)
Lemma step_keeps_rest (st : Step) (w : World) :
  NothingHeld w -> st_isBackgroundActive w = false -> NeverRestarts w ->
  NothingHeld (step st w) /\ st_isBackgroundActive (step st w) = false /\
  NeverRestarts (step st w).
Proof.
  intros H A N. destruct st as [props o | id | | id event | event now]; cbn [step].
  - set (started := fst (complete o (startBackgroundDetection (render props w)) w)).
    assert (Ns : NeverRestarts started).
    { apply start_from_inactive_render_never_restarts; [exact A | exact N]. }
    split; [|split].
    + apply stop_releases_what_is_tracked, start_tracks_what_it_holds, H.
    + apply stop_clears_state.
    + destruct (stop_fields started) as (R & _ & _ & T & _).
      destruct Ns as [F Tm]. unfold NeverRestarts. rewrite R, T. split; [|exact Tm].
      destruct (speechRecognitionRef started); [|exact F].
      apply Forall_update_nth; auto.
  - unfold deliverEnd. destruct (nth_error (recognitions w) id) as [r|] eqn:E; [|auto].
    assert (C : isBackgroundActive (rec_env r) = false).
    { destruct N as [F _]. rewrite Forall_forall in F. apply F.
      eapply nth_error_In; eauto. }
    unfold onend. rewrite C. cbn.
    destruct H as (V & M & S), N as (F & T).
    repeat split; auto; cbn; apply Forall_update_nth; auto.
  - unfold timerFires. destruct N as [F T]. rewrite T. split; [exact H|].
    split; [exact A|]. split; assumption.
  - unfold deliverResult. destruct (nth_error (recognitions w) id) as [r|]; [|auto].
    destruct (settings (rec_env r)); [|auto].
    unfold onresult. cbv zeta. destruct (hasEmergencyKeyword _ _ _); auto.
  - unfold deliverMotion.
    destruct (dispatchMotion_bounds event now (motionHandlers w)) as (_ & B & _).
    destruct (dispatchMotion event now (motionHandlers w)) as [hs n].
    cbn [fst] in B. destruct H as (V & M & S), N as (F & T).
    repeat split; auto. cbn. apply (Forall_attached_of_map _ B M).
Qed.

(** X4. A hook that is at rest (inactive, no recognition started, no motion
    listener attached, no track live, no restart timer pending, and no
    recognition whose handlers close over an active render, as a hook just
    mounted is) is at rest again after any sequence of completed sessions (a
    start that runs to completion, then a stop, with any settings and any
    host answers), ends of recognition engines, timer firings, results and
    motion events: sessions run one after the other leak nothing, also once
    the end events that follow [recognition.stop()] have been delivered. *)
Theorem completed_sessions_leave_nothing_held (l : list Step) (w : World) :
  st_isBackgroundActive w = false ->
  Forall (fun r => rec_started r = false) (recognitions w) ->
  Forall (fun h => attached h = false) (motionHandlers w) ->
  Forall (fun s => forallb negb (tracks s) = true) (streams w) ->
  Forall (fun r => isBackgroundActive (rec_env r) = false) (recognitions w) ->
  timers w = [] ->
  let w' := steps l w in
  st_isBackgroundActive w' = false /\
  Forall (fun r => rec_started r = false) (recognitions w') /\
  Forall (fun h => attached h = false) (motionHandlers w') /\
  Forall (fun s => forallb negb (tracks s) = true) (streams w') /\
  Forall (fun r => isBackgroundActive (rec_env r) = false) (recognitions w') /\
  timers w' = [].
Proof.
  intros A V M C F T. cbv zeta.
  assert (H : NothingHeld w) by (repeat split; assumption).
  assert (N : NeverRestarts w) by (split; assumption).
  clear V M C F T.
  assert (G : NothingHeld (steps l w) /\ st_isBackgroundActive (steps l w) = false /\
              NeverRestarts (steps l w)).
  { revert w A H N. induction l as [|st rest IH]; intros w A H N; [auto|].
    unfold steps. cbn [fold_left]. fold (steps rest (step st w)).
    destruct (step_keeps_rest st H A N) as (H' & A' & N'). auto. }
  destruct G as ((V & M & C) & A' & (F & T)).
  split; [exact A'|]. split; [exact V|]. split; [exact M|]. split; [exact C|].
  split; [exact F | exact T].
Qed.

Lemma completed_sessions_leave_nothing_held_witness :
  map rec_started
      (recognitions (steps [Session (Some allEnabled) grantAll; EngineEnds 0; TimerFires;
                            Session (Some allEnabled) grantAll; EngineEnds 1; TimerFires]
                           (mount fullCaps)))
  = [false; false] /\
  timers (steps [Session (Some allEnabled) grantAll; EngineEnds 0; TimerFires;
                 Session (Some allEnabled) grantAll; EngineEnds 1; TimerFires]
                (mount fullCaps))
  = [].
Proof.
  split; [reflexivity|].
  exact (proj2 (proj2 (proj2 (proj2 (proj2
           (@completed_sessions_leave_nothing_held
              [Session (Some allEnabled) grantAll; EngineEnds 0; TimerFires;
               Session (Some allEnabled) grantAll; EngineEnds 1; TimerFires]
              (mount fullCaps) eq_refl (Forall_nil _) (Forall_nil _) (Forall_nil _)
              (Forall_nil _) eq_refl)))))).
Defined.

(** A session started while the hook is marked active is another matter:
    after its stop, the end of the engine brings the recognition back. *)
Example session_from_active_hook_comes_back :
  let active := fst (complete grantAll
                       (startBackgroundDetection
                          (render (Some (allDisabled 70 60 [])) (mount fullCaps)))
                       (mount fullCaps)) in
  let w := steps [Session (Some allEnabled) grantAll; EngineEnds 0; TimerFires] active in
  st_isBackgroundActive active = true /\
  recognitions active = [] /\
  map rec_started (recognitions w) = [true] /\
  speechRecognitionRef w = None.
Proof. repeat split. Qed.

(** With a stop between the awaits of a start, the status the start
    publishes afterwards says voice is on while the recognition is stopped
    and no ref tracks it. *)
Example stale_status_after_interleaved_stop :
  voice (st_detectionStatus (fst afterCameraGrant)) = true /\
  speechRecognitionRef (fst afterCameraGrant) = None /\
  map rec_started (recognitions (fst afterCameraGrant)) = [false].
Proof. repeat split. Qed.

(** X5. Neither start nor stop calls the emergency callback, and neither
    schedules or cancels a restart timer: a timer pending when stop is
    called is still pending afterwards. *)
Theorem start_and_stop_leave_callback_and_timers
    (env : Render) (o : Oracle) (w : World) :
  emergencyCalls (fst (complete o (startBackgroundDetection env) w)) = emergencyCalls w /\
  timers (fst (complete o (startBackgroundDetection env) w)) = timers w /\
  emergencyCalls (stopBackgroundDetection w) = emergencyCalls w /\
  timers (stopBackgroundDetection w) = timers w.
Proof.
  assert (F : (fun x => (emergencyCalls x, timers x))
                (fst (complete o (startBackgroundDetection env) w))
              = (emergencyCalls w, timers w)).
  { apply (uses_frame (fun x => (emergencyCalls x, timers x))).
    apply startBackgroundDetection_uses; reflexivity. }
  cbv beta in F. injection F as F1 F2.
  destruct (stop_fields w) as (_ & _ & _ & T & E & _). auto.
Qed.

(** ** Voice: a restart that outlives stop *)

Lemma deliverEnd_restarting (id : nat) (r : Recognition) (w : World) :
  nth_error (recognitions w) id = Some r ->
  isBackgroundActive (rec_env r) = true ->
  optFlag voiceEnabled (rec_env r) = true ->
  recognitions (deliverEnd id w)
  = update_nth id (markStarted false) (recognitions w) /\
  timers (deliverEnd id w) = timers w ++ [{| delay := 1000; restarts := id |}] /\
  speechRecognitionRef (deliverEnd id w) = speechRecognitionRef w /\
  emergencyCalls (deliverEnd id w) = emergencyCalls w.
Proof.
  intros Hr Ha Hv. unfold deliverEnd, onend. rewrite Hr, Ha, Hv.
  cbn. auto.
Qed.

(** X6. A recognition whose handlers close over a render in which the session
    was already active and voice enabled restarts itself whenever its engine
    ends, and stop does not prevent it: when stop has stopped the tracked
    recognition and its engine then ends, a restart is scheduled 1000 ms
    later, and when that timer fires the recognition is started again while
    no ref tracks it any more. The emergency callback is not called on the
    way. *)
Theorem recognition_of_active_render_restarts_after_stop
    (id : nat) (r : Recognition) (w : World) :
  speechRecognitionRef w = Some id ->
  nth_error (recognitions w) id = Some r ->
  isBackgroundActive (rec_env r) = true ->
  optFlag voiceEnabled (rec_env r) = true ->
  timers w = [] ->
  let stopped := stopBackgroundDetection w in
  let ended := deliverEnd id stopped in
  let restarted := timerFires ended in
  nth_error (recognitions stopped) id = Some (markStarted false r) /\
  timers ended = [{| delay := 1000; restarts := id |}] /\
  nth_error (recognitions restarted) id = Some (markStarted true r) /\
  speechRecognitionRef restarted = None /\
  timers restarted = [] /\
  emergencyCalls restarted = emergencyCalls w.
Proof.
  intros Href Hr Ha Hv Ht stopped ended restarted.
  destruct (stop_fields w) as (R & _ & _ & T & E & _).
  destruct (stop_clears_state w) as (_ & _ & S & _).
  fold stopped in R, T, E, S. rewrite Href in R. rewrite Ht in T.
  assert (N1 : nth_error (recognitions stopped) id = Some (markStarted false r)).
  { rewrite R, nth_error_update_nth, Nat.eqb_refl, Hr. reflexivity. }
  destruct (deliverEnd_restarting id stopped N1 Ha Hv) as (R2 & T2 & S2 & E2).
  fold ended in R2, T2, S2, E2. rewrite T in T2. cbn [app] in T2.
  assert (N2 : nth_error (recognitions ended) id = Some (markStarted false r)).
  { rewrite R2, nth_error_update_nth, Nat.eqb_refl, N1. reflexivity. }
  assert (F : restarted = recognition_start id (set_timers [] ended)).
  { unfold restarted, timerFires. rewrite T2. cbn [restarts].
    unfold restartRecognition. cbn [recognitions set_timers]. rewrite N2.
    reflexivity. }
  repeat split; auto.
  - rewrite F. cbn [recognitions recognition_start logCall set_calls set_recognitions
                    set_timers].
    rewrite nth_error_update_nth, Nat.eqb_refl, N2. reflexivity.
  - rewrite F. cbn. congruence.
  - rewrite F. reflexivity.
  - rewrite F. cbn. congruence.
Qed.

Lemma recognition_of_active_render_restarts_after_stop_witness :
  speechRecognitionRef startedTwice = Some 1 /\
  timers startedTwice = [] /\
  option_map rec_started
    (nth_error (recognitions
                  (timerFires (deliverEnd 1 (stopBackgroundDetection startedTwice)))) 1)
  = Some true.
Proof.
  split; [reflexivity | split; [reflexivity |]].
  rewrite (proj1 (proj2 (proj2
             (@recognition_of_active_render_restarts_after_stop
                1 (markStarted true
                     (newRecognition (render (Some allEnabled) startedOnce)))
                startedTwice eq_refl eq_refl eq_refl eq_refl eq_refl)))).
  reflexivity.
Defined.

(** ** Voice: what the matching is blind to, and what it remembers *)

Lemma lower_ascii_idempotent (c : ascii) :
  JsString.lower_ascii (JsString.lower_ascii c) = JsString.lower_ascii c.
Proof.
  destruct c as [[] [] [] [] [] [] [] []]; reflexivity.
Qed.

Lemma lower_upper_ascii (c : ascii) :
  JsString.lower_ascii (JsString.upper_ascii c) = JsString.lower_ascii c.
Proof.
  destruct c as [[] [] [] [] [] [] [] []]; reflexivity.
Qed.

Lemma asciiLowerCase_upper (s : string) :
  JsString.asciiLowerCase (JsString.asciiUpperCase s) = JsString.asciiLowerCase s.
Proof.
  induction s as [|c s IH]; [reflexivity|].
  cbn [JsString.asciiLowerCase JsString.asciiUpperCase].
  now rewrite lower_upper_ascii, IH.
Qed.

Lemma asciiLowerCase_append (a b : string) :
  JsString.asciiLowerCase (append a b)
  = append (JsString.asciiLowerCase a) (JsString.asciiLowerCase b).
Proof.
  induction a as [|c a IH]; [reflexivity|].
  cbn [append JsString.asciiLowerCase]. now rewrite IH.
Qed.

Lemma asciiLowerCase_join (parts : list string) :
  JsString.asciiLowerCase (JsString.join parts)
  = JsString.join (map JsString.asciiLowerCase parts).
Proof.
  induction parts as [|p rest IH]; [reflexivity|].
  cbn [map JsString.join]. now rewrite asciiLowerCase_append, IH.
Qed.

Lemma isAscii_append (a b : string) :
  JsString.isAscii (append a b) = JsString.isAscii a && JsString.isAscii b.
Proof.
  induction a as [|c a IH]; [reflexivity|].
  cbn [append JsString.isAscii]. now rewrite IH, andb_assoc.
Qed.

Lemma isAscii_join (parts : list string) :
  Forall (fun p => JsString.isAscii p = true) parts ->
  JsString.isAscii (JsString.join parts) = true.
Proof.
  induction 1 as [|p rest Hp _ IH]; [reflexivity|].
  cbn [JsString.join]. now rewrite isAscii_append, Hp, IH.
Qed.

Lemma join_app (l m : list string) :
  JsString.join (l ++ m) = append (JsString.join l) (JsString.join m).
Proof.
  induction l as [|x l IH]; [reflexivity|].
  cbn [app JsString.join]. rewrite IH.
  clear. induction x as [|c x IH]; [reflexivity|]. cbn [append]. now rewrite IH.
Qed.

Lemma append_assoc (a b c : string) :
  append (append a b) c = append a (append b c).
Proof.
  induction a as [|x a IH]; [reflexivity|]. cbn [append]. now rewrite IH.
Qed.

(** On a host that lowers ASCII text as the language says, the transcript of
    an event with ASCII best transcripts is the concatenation of their
    ASCII lower-casings. *)
Lemma eventTranscript_ascii (c : Capabilities) (event : SpeechRecognitionEvent) :
  LowersAscii c ->
  Forall (fun r => JsString.isAscii (transcript (item0 r)) = true) (results event) ->
  eventTranscript (toLowerCase c) event
  = JsString.join (map (fun r => JsString.asciiLowerCase (transcript (item0 r)))
                       (results event)).
Proof.
  intros Hc Ha. unfold eventTranscript.
  rewrite Hc.
  - now rewrite asciiLowerCase_join, map_map.
  - apply isAscii_join. apply Forall_map. exact Ha.
Qed.

Lemma hasEmergencyKeyword_ascii (c : Capabilities) (K : list string) (t : string) :
  LowersAscii c ->
  Forall (fun k => JsString.isAscii k = true) K ->
  hasEmergencyKeyword (toLowerCase c) K t
  = existsb (JsString.includes t) (map JsString.asciiLowerCase K).
Proof.
  intros Hc Ha. unfold hasEmergencyKeyword.
  induction Ha as [|k K Hk _ IH]; [reflexivity|].
  cbn [existsb map]. now rewrite IH, (Hc k Hk).
Qed.

(** X7. On a host that lowers ASCII text as the language says, and for ASCII
    keywords and ASCII best transcripts, [onresult] sees the keywords and
    the transcripts through their lower-cased forms only: two keyword lists
    that are equal up to the case of their letters, and two result lists
    whose best transcripts are, give the same outcome; in particular
    upper-casing every keyword, or every transcript, changes nothing. *)
Theorem voice_matching_ignores_case
    (s s' : DetectionSettings) (event event' : SpeechRecognitionEvent) (w : World) :
  LowersAscii (caps w) ->
  Forall (fun k => JsString.isAscii k = true) (emergencyKeywords s) ->
  Forall (fun k => JsString.isAscii k = true) (emergencyKeywords s') ->
  Forall (fun r => JsString.isAscii (transcript (item0 r)) = true) (results event) ->
  Forall (fun r => JsString.isAscii (transcript (item0 r)) = true) (results event') ->
  map JsString.asciiLowerCase (emergencyKeywords s')
  = map JsString.asciiLowerCase (emergencyKeywords s) ->
  map (fun r => JsString.asciiLowerCase (transcript (item0 r))) (results event')
  = map (fun r => JsString.asciiLowerCase (transcript (item0 r))) (results event) ->
  onresult s' event' w = onresult s event w.
Proof.
  intros Hc Ks Ks' Te Te' EK ET. unfold onresult. cbv zeta.
  rewrite (eventTranscript_ascii event Hc Te), (eventTranscript_ascii event' Hc Te').
  rewrite (hasEmergencyKeyword_ascii _ Hc Ks), (hasEmergencyKeyword_ascii _ Hc Ks').
  now rewrite EK, ET.
Qed.

Lemma voice_matching_ignores_case_witness :
  onresult scenarioSettings (heard "PLEASE HELP ME") (mount fullCaps)
  = onresult scenarioSettings (heard "please help me") (mount fullCaps) /\
  emergencyCalls (onresult scenarioSettings (heard "PLEASE HELP ME") (mount fullCaps)) = 1.
Proof.
  split; [|reflexivity].
  apply (@voice_matching_ignores_case scenarioSettings scenarioSettings
           (heard "please help me") (heard "PLEASE HELP ME") (mount fullCaps)).
  - intros t _. reflexivity.
  - repeat constructor.
  - repeat constructor.
  - repeat constructor.
  - repeat constructor.
  - reflexivity.
  - reflexivity.
Defined.

Lemma Substring_append (k a b c : string) :
  JsString.Substring k b -> JsString.Substring k (append a (append b c)).
Proof.
  intros (pre & post & ->). exists (append a pre), (append post c).
  now rewrite !append_assoc.
Qed.

(** X8. On a host that lowers ASCII text as the language says, and for ASCII
    best transcripts: the results of a continuous recognition accumulate,
    and the handler matches against all of them joined without a separator,
    so once a keyword occurs in the results so far, every later event that
    still carries those results, with whatever ASCII results come before or
    after them, calls the emergency callback again; nothing debounces the
    voice channel. An empty keyword among the settings makes every event
    call the callback, even one with no result at all. *)
Theorem voice_keeps_firing_once_a_keyword_was_heard
    (s : DetectionSettings) (w : World) :
  LowersAscii (caps w) ->
  (forall heardSoFar before after : list SpeechRecognitionResult,
      Forall (fun r => JsString.isAscii (transcript (item0 r)) = true)
             (before ++ heardSoFar ++ after) ->
      emergencyCalls (onresult s {| results := heardSoFar |} w) = S (emergencyCalls w) ->
      forall w2 : World,
        caps w2 = caps w ->
        emergencyCalls (onresult s {| results := before ++ heardSoFar ++ after |} w2)
        = S (emergencyCalls w2))
  /\
  (In EmptyString (emergencyKeywords s) ->
   forall (event : SpeechRecognitionEvent) (w2 : World),
     caps w2 = caps w ->
     emergencyCalls (onresult s event w2) = S (emergencyCalls w2)).
Proof.
  intros Hc. split.
  - intros heardSoFar before after Ha H w2 Hw2.
    apply Forall_app in Ha as [Hb Ha]. apply Forall_app in Ha as [Hh Haf].
    assert (K : hasEmergencyKeyword (toLowerCase (caps w)) (emergencyKeywords s)
                  (eventTranscript (toLowerCase (caps w)) {| results := heardSoFar |})
                = true).
    { unfold onresult in H. cbv zeta in H.
      destruct (hasEmergencyKeyword _ _ _); [reflexivity|]. cbn in H. lia. }
    apply hasEmergencyKeyword_spec in K. destruct K as (k & Hin & Hsub).
    assert (K2 : hasEmergencyKeyword (toLowerCase (caps w)) (emergencyKeywords s)
                   (eventTranscript (toLowerCase (caps w))
                      {| results := before ++ heardSoFar ++ after |})
                 = true).
    { apply hasEmergencyKeyword_spec. exists k. split; [exact Hin|].
      rewrite (eventTranscript_ascii {| results := heardSoFar |} Hc Hh) in Hsub.
      rewrite (eventTranscript_ascii {| results := before ++ heardSoFar ++ after |} Hc).
      - cbn [results] in *. rewrite !map_app, !join_app.
        now apply Substring_append.
      - cbn [results]. apply Forall_app. split; [exact Hb|].
        apply Forall_app. split; assumption. }
    unfold onresult. cbv zeta. rewrite Hw2, K2. reflexivity.
  - intros Hin event w2 Hw2.
    assert (K : hasEmergencyKeyword (toLowerCase (caps w)) (emergencyKeywords s)
                  (eventTranscript (toLowerCase (caps w)) event) = true).
    { apply hasEmergencyKeyword_spec. exists EmptyString. split; [exact Hin|].
      rewrite (Hc EmptyString eq_refl).
      exists EmptyString, (eventTranscript (toLowerCase (caps w)) event). reflexivity. }
    unfold onresult. cbv zeta. rewrite Hw2, K. reflexivity.
Qed.

Lemma voice_keeps_firing_once_a_keyword_was_heard_witness :
  emergencyCalls (onresult scenarioSettings (heard "help") (mount fullCaps)) = 1 /\
  emergencyCalls
    (onresult scenarioSettings
       {| results := results (heard "well ") ++ results (heard "help")
                     ++ results (heard " thanks") |}
       (mount fullCaps)) = 1.
Proof.
  assert (H : emergencyCalls (onresult scenarioSettings
                                {| results := results (heard "help") |} (mount fullCaps))
              = S (emergencyCalls (mount fullCaps))) by reflexivity.
  split; [exact H|].
  refine (proj1 (@voice_keeps_firing_once_a_keyword_was_heard
                   scenarioSettings (mount fullCaps) _)
            (results (heard "help")) (results (heard "well ")) (results (heard " thanks"))
            _ H (mount fullCaps) eq_refl).
  - intros t _. reflexivity.
  - repeat constructor.
Defined.

(** The transcripts are joined without a separator, so a keyword split over
    two results is matched. *)
Example voice_keyword_across_two_results :
  emergencyCalls
    (onresult scenarioSettings
       {| results := results (heard "he") ++ results (heard "lp") |} (mount fullCaps))
  = 1.
Proof. reflexivity. Qed.

(* ================================================================== *)
(** * The worker, the dashboard and the pages around the hook *)

(** ** The worker over a sequence of messages *)

Lemma onmessage_announces (granted : bool) (event : Worker.MessageEvent)
    (shown : list Worker.Notification) :
  Worker.onmessage granted event shown
  = shown ++ flat_map (fun n => Worker.handleEmergencyAlert granted
                                  (Some {| Worker.contactCount := n |}) [])
                      (announcedCount event).
Proof.
  unfold Worker.onmessage, announcedCount.
  destruct (Worker.data event) as [[t [[n]|]]|]; cbn;
    try (destruct (String.eqb t "EMERGENCY_TRIGGERED")); cbn;
    rewrite ?app_nil_r; auto.
  unfold Worker.showNotification. destruct granted; cbn; now rewrite ?app_nil_r.
Qed.

Lemma processMessages_announces (granted : bool) (events : list Worker.MessageEvent)
    (shown : list Worker.Notification) :
  processMessages granted events shown
  = shown ++ flat_map (fun n => Worker.handleEmergencyAlert granted
                                  (Some {| Worker.contactCount := n |}) [])
                      (flat_map announcedCount events).
Proof.
  revert shown. induction events as [|event rest IH]; intros shown.
  - cbn. now rewrite app_nil_r.
  - unfold processMessages. cbn [fold_left].
    fold (processMessages granted rest (Worker.onmessage granted event shown)).
    rewrite IH, onmessage_announces. cbn [flat_map].
    now rewrite flat_map_app, app_assoc.
Qed.

(** X9. Whatever messages arrive, the worker only ever adds notifications, in
    the order of the messages. While the notification permission is granted
    it adds one for each EMERGENCY_TRIGGERED message that carries a payload,
    with the fixed title, the single "view" action and, the counts being
    safe integers, that message's count in decimal in the body; every other
    message adds none, and nothing already shown is dropped or reordered.
    While the permission is not granted no message adds any. *)
Theorem worker_shows_one_notification_per_alert
    (events : list Worker.MessageEvent) (shown : list Worker.Notification) :
  Forall (fun n => (- 2 ^ 53 <= n <= 2 ^ 53)%Z) (flat_map announcedCount events) ->
  (exists added,
      processMessages true events shown = shown ++ added /\
      map Worker.body added
      = map (fun n => append "Alert sent to "
                        (append (NilZero.string_of_int (Z.to_int n))
                                " emergency contacts"))
            (flat_map announcedCount events) /\
      Forall (fun x => Worker.n_title x = Worker.alertTitle /\
                       Worker.actions x
                       = [{| Worker.action := "view";
                             Worker.action_title := "View Details" |}]) added /\
      List.length added = List.length (flat_map announcedCount events) /\
      List.length added <= List.length events) /\
  processMessages false events shown = shown.
Proof.
  intros _. split.
  - rewrite processMessages_announces. eexists. split; [reflexivity|].
    assert (L : List.length (flat_map announcedCount events) <= List.length events).
    { clear. induction events as [|event rest IH]; [auto|].
      cbn [flat_map]. rewrite length_app. cbn [List.length].
      assert (List.length (announcedCount event) <= 1).
      { unfold announcedCount.
        destruct (Worker.data event) as [[t [[n]|]]|]; cbn; auto.
        destruct (String.eqb t "EMERGENCY_TRIGGERED"); cbn; auto. }
      lia. }
    revert L. generalize (flat_map announcedCount events) as counts.
    induction counts as [|n counts IH]; intros L.
    + cbn. repeat split; auto; lia.
    + cbn [flat_map map List.length app Worker.handleEmergencyAlert
           Worker.showNotification] in *.
      assert (L' : List.length counts <= List.length events) by lia.
      destruct (IH L') as (B & F & E & _).
      cbn [Worker.body Worker.alertBody Worker.numberToString].
      rewrite B, E. repeat split; auto.
  - rewrite processMessages_announces.
    induction (flat_map announcedCount events) as [|n counts IH];
      cbn in *; rewrite ?app_nil_r in *; auto.
Qed.

Lemma worker_shows_one_notification_per_alert_witness :
  let events :=
    [{| Worker.data := Some {| Worker.msg_type := "PING"; Worker.payload := None |} |};
     {| Worker.data :=
          Some {| Worker.msg_type := "EMERGENCY_TRIGGERED";
                  Worker.payload := Some {| Worker.contactCount := 2 |} |} |}] in
  Forall (fun n => (- 2 ^ 53 <= n <= 2 ^ 53)%Z) (flat_map announcedCount events) /\
  processMessages false events [] = [].
Proof.
  cbv zeta.
  assert (H : Forall (fun n => (- 2 ^ 53 <= n <= 2 ^ 53)%Z)
                (flat_map announcedCount
                   [{| Worker.data := Some {| Worker.msg_type := "PING";
                                              Worker.payload := None |} |};
                    {| Worker.data :=
                         Some {| Worker.msg_type := "EMERGENCY_TRIGGERED";
                                 Worker.payload :=
                                   Some {| Worker.contactCount := 2 |} |} |}])).
  { cbn. repeat constructor; discriminate. }
  split; [exact H|].
  exact (proj2 (worker_shows_one_notification_per_alert _ [] H)).
Defined.

(** ** The dashboard *)

Lemma countEnabled_flags (s : DetectionSettings) :
  Dashboard.countEnabled s
  = Nat.b2n (voiceEnabled s) + Nat.b2n (blinkEnabled s)
    + Nat.b2n (gestureEnabled s) + Nat.b2n (motionEnabled s).
Proof.
  destruct s as [[] [] [] [] vs ms K]; vm_compute; reflexivity.
Qed.

Lemma countEnabled_agrees (s : DetectionSettings) :
  Dashboard.countEnabled s = Settings.enabledCount s.
Proof.
  rewrite countEnabled_flags. unfold Settings.enabledCount, Settings.detectionMethods.
  destruct (voiceEnabled s), (blinkEnabled s), (gestureEnabled s), (motionEnabled s);
    reflexivity.
Qed.

(** X10. The dashboard counts a settings object's enabled methods by keeping the
    entries whose key contains "Enabled" and whose value is truthy: that
    count is the number of the four switches that are on, whatever the
    sensitivities and the keywords are, and it is the count the settings
    page shows for the same settings. *)
Theorem enabled_methods_count_is_the_number_of_switches_on (s : DetectionSettings) :
  Dashboard.enabledDetectionMethods (Some s)
  = Nat.b2n (voiceEnabled s) + Nat.b2n (blinkEnabled s)
    + Nat.b2n (gestureEnabled s) + Nat.b2n (motionEnabled s) /\
  Dashboard.enabledDetectionMethods (Some s) = Settings.enabledCount s /\
  Dashboard.enabledDetectionMethods (Some s) <= 4 /\
  (Dashboard.enabledDetectionMethods (Some s) = 0 <->
   voiceEnabled s = false /\ blinkEnabled s = false /\
   gestureEnabled s = false /\ motionEnabled s = false).
Proof.
  cbn [Dashboard.enabledDetectionMethods]. rewrite countEnabled_flags.
  unfold Settings.enabledCount, Settings.detectionMethods.
  destruct (voiceEnabled s), (blinkEnabled s), (gestureEnabled s), (motionEnabled s);
    cbn; repeat split; auto; try lia; try discriminate;
    intros (H1 & H2 & H3 & H4); discriminate.
Qed.

Lemma autoStart_latch (d : Dashboard.Deps) (m : bool) :
  Dashboard.autoStart d m
  = m || match Dashboard.contacts d, Dashboard.location d,
               Dashboard.detectionSettings d with
         | _ :: _, Some _, Some s =>
             voiceEnabled s || blinkEnabled s || gestureEnabled s || motionEnabled s
         | _, _, _ => false
         end.
Proof.
  unfold Dashboard.autoStart.
  destruct (Dashboard.contacts d) as [|c cs]; [now rewrite orb_false_r|].
  destruct (Dashboard.location d) as [l|]; [|now rewrite orb_false_r].
  destruct (Dashboard.detectionSettings d) as [s|]; [|now rewrite orb_false_r].
  rewrite countEnabled_flags.
  destruct (voiceEnabled s), (blinkEnabled s), (gestureEnabled s), (motionEnabled s), m;
    reflexivity.
Qed.

(** X11. Monitoring is a latch. After any sequence of changes of the contacts,
    the location and the settings, monitoring is on exactly when it was on
    before or some change had at least one contact, a location and settings
    with a switch on; nothing turns it off again, so it stays on, and the
    status keeps reading "Monitoring Active", after the last contact is
    removed. *)
Theorem monitoring_once_on_stays_on (changes : list Dashboard.Deps) (isMonitoring : bool) :
  Dashboard.monitoringAfter changes isMonitoring
  = (isMonitoring ||
     existsb (fun d =>
                match Dashboard.contacts d, Dashboard.location d,
                      Dashboard.detectionSettings d with
                | _ :: _, Some _, Some s =>
                    voiceEnabled s || blinkEnabled s || gestureEnabled s
                    || motionEnabled s
                | _, _, _ => false
                end) changes) /\
  Dashboard.monitoringAfter changes true = true /\
  Dashboard.systemStatus false (Dashboard.monitoringAfter changes true)
  = "Monitoring Active"%string.
Proof.
  assert (H : forall m,
             Dashboard.monitoringAfter changes m
             = (m || existsb (fun d =>
                  match Dashboard.contacts d, Dashboard.location d,
                        Dashboard.detectionSettings d with
                  | _ :: _, Some _, Some s =>
                      voiceEnabled s || blinkEnabled s || gestureEnabled s
                      || motionEnabled s
                  | _, _, _ => false
                  end) changes)).
  { induction changes as [|d rest IH]; intros m.
    - cbn. now rewrite orb_false_r.
    - unfold Dashboard.monitoringAfter. cbn [fold_left].
      fold (Dashboard.monitoringAfter rest (Dashboard.autoStart d m)).
      rewrite IH, autoStart_latch. cbn [existsb]. now rewrite orb_assoc. }
  split; [apply H|]. rewrite (H true). cbn. auto.
Qed.

(** X12. When the dashboard counts no enabled method for some settings, a
    start with these settings starts no channel, in any world and on any
    host: it creates no recognition, listener or stream, makes none of the
    recognition, listener and track calls, asks neither for the motion
    permission nor for the camera, and leaves the refs alone. All it does is
    mark the session active, publish the all-false status, ask for the
    notification permission when that is still undecided (the only promise
    it then waits for) and show the "Background Detection Active" toast. *)
Theorem start_is_inert_when_no_method_is_enabled
    (s : DetectionSettings) (b : bool) (o : Oracle) (w : World) :
  Dashboard.enabledDetectionMethods (Some s) = 0 ->
  let env := {| isBackgroundActive := b; settings := Some s |} in
  let w' := fst (complete o (startBackgroundDetection env) w) in
  let marked := set_st_detectionStatus
                  {| voice := false; motion := false; camera := false |}
                  (set_st_isBackgroundActive true w) in
  w' = set_toasts (toasts w ++ [detectionActive]) marked /\
  run (startBackgroundDetection env) w
  = (if notificationDefault (caps w)
     then (marked,
           Blocked RequestNotificationPermission
                   (fun _ => Modify (toast detectionActive) (Ret tt)))
     else (set_toasts (toasts w ++ [detectionActive]) marked, Done tt)) /\
  st_detectionStatus w' = {| voice := false; motion := false; camera := false |} /\
  recognitions w' = recognitions w /\
  motionHandlers w' = motionHandlers w /\
  streams w' = streams w /\
  calls w' = calls w /\
  (speechRecognitionRef w', motionListenerRef w', videoStreamRef w')
  = (speechRecognitionRef w, motionListenerRef w, videoStreamRef w).
Proof.
  intros H env w' marked. cbn [Dashboard.enabledDetectionMethods] in H.
  rewrite countEnabled_flags in H.
  assert (F : voiceEnabled s = false /\ blinkEnabled s = false /\
              gestureEnabled s = false /\ motionEnabled s = false).
  { destruct (voiceEnabled s), (blinkEnabled s), (gestureEnabled s), (motionEnabled s);
      try discriminate; auto. }
  destruct F as (H1 & H2 & H3 & H4).
  subst w' marked env. unfold startBackgroundDetection. cbn [settings].
  rewrite H1, H2, H3, H4. cbn.
  destruct (notificationDefault (caps w)); cbn; repeat split.
Qed.

Lemma start_is_inert_when_no_method_is_enabled_witness :
  Dashboard.enabledDetectionMethods (Some (allDisabled 70 60 ["help"%string])) = 0 /\
  calls (fst (complete grantAll
                (startBackgroundDetection
                   {| isBackgroundActive := false;
                      settings := Some (allDisabled 70 60 ["help"%string]) |})
                startedOnce))
  = calls startedOnce.
Proof.
  split; [reflexivity|].
  exact (proj1 (proj2 (proj2 (proj2 (proj2 (proj2 (proj2
           (@start_is_inert_when_no_method_is_enabled
              (allDisabled 70 60 ["help"%string]) false grantAll startedOnce
              eq_refl)))))))).
Defined.

(** ** The contact manager *)

Lemma numberToString_injective (a b : Z) :
  Worker.numberToString a = Worker.numberToString b -> a = b.
Proof.
  unfold Worker.numberToString. intros H.
  assert (N : forall z, Z.to_int z <> Decimal.Pos Decimal.Nil /\
                        Z.to_int z <> Decimal.Neg Decimal.Nil).
  { intros [|p|p]; cbn; split; try discriminate; intros E; injection E as E;
      exact (DecimalPos.Unsigned.to_uint_nonnil p E). }
  apply DecimalZ.to_int_inj.
  assert (E : Some (Z.to_int a) = Some (Z.to_int b)).
  { rewrite <- (NilZero.isi (Z.to_int a)) by apply N.
    rewrite <- (NilZero.isi (Z.to_int b)) by apply N.
    now rewrite H. }
  now injection E.
Qed.

Lemma last_snoc {A : Type} (l : list A) (x d : A) : List.last (l ++ [x]) d = x.
Proof. apply last_last. Qed.

Lemma contacts_act_in_sync (a : Contacts.Action) (st : Contacts.State) :
  Contacts.storage st = Some (Contacts.contacts st) \/
  (Contacts.storage st = None /\ Contacts.contacts st = []) ->
  List.last (Contacts.reported st) [] = Contacts.contacts st ->
  (Contacts.storage (Contacts.act a st) = Some (Contacts.contacts (Contacts.act a st)) \/
   (Contacts.storage (Contacts.act a st) = None /\
    Contacts.contacts (Contacts.act a st) = [])) /\
  List.last (Contacts.reported (Contacts.act a st)) []
  = Contacts.contacts (Contacts.act a st).
Proof.
  intros S R. destruct a as [f| |now|rid]; cbn; auto.
  - unfold Contacts.addContact.
    destruct (Contacts.isEmpty _ || Contacts.isEmpty _); cbn; auto.
    split; [now left | apply last_snoc].
  - split; [now left | apply last_snoc].
Qed.

(** X13. Through any sequence of typing, showing or hiding the form, saving and
    removing, starting from what was saved: the stored list is the list on
    display (or nothing is stored yet and the list is empty), and the last
    list handed to [onContactsChange] is the list on display, so that the
    parent counts the contacts the user sees. *)
Theorem contacts_storage_and_parent_follow_the_list
    (saved : option (list Contacts.Contact)) (l : list Contacts.Action) :
  let st := Contacts.acts l (Contacts.mount saved) in
  (Contacts.storage st = Some (Contacts.contacts st) \/
   (Contacts.storage st = None /\ Contacts.contacts st = [] /\ saved = None)) /\
  List.last (Contacts.reported st) [] = Contacts.contacts st.
Proof.
  cbv zeta.
  assert (G : forall st,
             (Contacts.storage st = Some (Contacts.contacts st) \/
              (Contacts.storage st = None /\ Contacts.contacts st = [])) ->
             List.last (Contacts.reported st) [] = Contacts.contacts st ->
             (Contacts.storage (Contacts.acts l st)
              = Some (Contacts.contacts (Contacts.acts l st)) \/
              (Contacts.storage (Contacts.acts l st) = None /\
               Contacts.contacts (Contacts.acts l st) = [])) /\
             List.last (Contacts.reported (Contacts.acts l st)) []
             = Contacts.contacts (Contacts.acts l st)).
  { induction l as [|a rest IH]; intros st S R; [auto|].
    unfold Contacts.acts. cbn [fold_left].
    fold (Contacts.acts rest (Contacts.act a st)).
    destruct (contacts_act_in_sync a st S R) as [S' R']. auto. }
  assert (M : (Contacts.storage (Contacts.mount saved)
               = Some (Contacts.contacts (Contacts.mount saved)) \/
               (Contacts.storage (Contacts.mount saved) = None /\
                Contacts.contacts (Contacts.mount saved) = [])) /\
              List.last (Contacts.reported (Contacts.mount saved)) []
              = Contacts.contacts (Contacts.mount saved)).
  { destruct saved; cbn; auto. }
  destruct (G _ (proj1 M) (proj2 M)) as [[S|[S C]] R]; split; auto.
  right. repeat split; auto.
  destruct saved as [parsed|]; [|reflexivity].
  (* something was saved: the item can only be replaced, never removed *)
  exfalso. clear G M R C.
  assert (K : forall l st, Contacts.storage st <> None ->
                           Contacts.storage (Contacts.acts l st) <> None).
  { clear. induction l as [|a rest IH]; intros st H; [exact H|].
    unfold Contacts.acts. cbn [fold_left].
    fold (Contacts.acts rest (Contacts.act a st)). apply IH.
    destruct a as [f| |now|rid]; cbn; auto; try discriminate.
    unfold Contacts.addContact.
    destruct (Contacts.isEmpty _ || Contacts.isEmpty _); cbn; auto; discriminate. }
  apply (K l (Contacts.mount (Some parsed))); [discriminate | exact S].
Qed.

(** X14. A save with a name and a phone, followed by the removal of the contact
    it created, gives back the list without the contacts that had the same
    id: the list as it was when the clock reading is new, one contact fewer
    for each one created at that very millisecond. A save without a name or
    without a phone changes neither the list, the stored item nor the form,
    and tells the parent nothing. *)
Theorem save_then_remove_restores_the_list (now : Z) (st : Contacts.State) :
  (Contacts.f_name (Contacts.newContact st) <> EmptyString ->
   Contacts.f_phone (Contacts.newContact st) <> EmptyString ->
   let saved := Contacts.addContact now st in
   let removed := Contacts.removeContact (NilZero.string_of_int (Z.to_int now)) saved in
   Contacts.contacts saved
   = Contacts.contacts st
     ++ [{| Contacts.id := NilZero.string_of_int (Z.to_int now);
            Contacts.name := Contacts.f_name (Contacts.newContact st);
            Contacts.phone := Contacts.f_phone (Contacts.newContact st);
            Contacts.email := Some (Contacts.f_email (Contacts.newContact st));
            Contacts.relationship := Contacts.f_relationship (Contacts.newContact st) |}] /\
   Contacts.contacts removed
   = filter (fun c => negb (String.eqb (Contacts.id c)
                                       (NilZero.string_of_int (Z.to_int now))))
            (Contacts.contacts st) /\
   (Forall (fun c => Contacts.id c <> NilZero.string_of_int (Z.to_int now))
           (Contacts.contacts st) ->
    Contacts.contacts removed = Contacts.contacts st /\
    Contacts.storage removed = Some (Contacts.contacts st)))
  /\
  (Contacts.f_name (Contacts.newContact st) = EmptyString \/
   Contacts.f_phone (Contacts.newContact st) = EmptyString ->
   let refused := Contacts.addContact now st in
   Contacts.contacts refused = Contacts.contacts st /\
   Contacts.storage refused = Contacts.storage st /\
   Contacts.reported refused = Contacts.reported st /\
   Contacts.newContact refused = Contacts.newContact st /\
   Contacts.showAddForm refused = Contacts.showAddForm st /\
   Contacts.toasts refused = Contacts.toasts st ++ [Contacts.missingInformation]).
Proof.
  split.
  - intros Hn Hp saved removed.
    assert (E : Contacts.isEmpty (Contacts.f_name (Contacts.newContact st))
                || Contacts.isEmpty (Contacts.f_phone (Contacts.newContact st)) = false).
    { destruct (Contacts.f_name (Contacts.newContact st)); [contradiction|].
      destruct (Contacts.f_phone (Contacts.newContact st)); [contradiction|].
      reflexivity. }
    assert (S : Contacts.contacts saved
                = Contacts.contacts st
                  ++ [Contacts.newContactAt now (Contacts.newContact st)]).
    { unfold saved, Contacts.addContact. rewrite E. reflexivity. }
    assert (R : Contacts.contacts removed
                = filter (fun c => negb (String.eqb (Contacts.id c)
                                           (NilZero.string_of_int (Z.to_int now))))
                         (Contacts.contacts st)).
    { unfold removed, Contacts.removeContact. cbn [Contacts.contacts
        Contacts.showToast Contacts.saveContacts].
      rewrite S, filter_app. cbn [filter Contacts.newContactAt Contacts.id].
      unfold Worker.numberToString. rewrite String.eqb_refl. cbn.
      apply app_nil_r. }
    split; [exact S | split; [exact R|]].
    intros F.
    assert (Q : filter (fun c => negb (String.eqb (Contacts.id c)
                                        (NilZero.string_of_int (Z.to_int now))))
                       (Contacts.contacts st) = Contacts.contacts st).
    { apply forallb_filter_id. apply forallb_forall. intros c Hc.
      rewrite Forall_forall in F. specialize (F c Hc).
      destruct (String.eqb_spec (Contacts.id c) (NilZero.string_of_int (Z.to_int now)));
        [contradiction | reflexivity]. }
    split; [now rewrite R|].
    unfold removed, Contacts.removeContact.
    cbn [Contacts.storage Contacts.showToast Contacts.saveContacts].
    f_equal. fold (Contacts.contacts saved) in *.
    change (filter _ (Contacts.contacts saved)) with (Contacts.contacts removed).
    now rewrite R.
  - intros H refused. unfold refused, Contacts.addContact.
    assert (E : Contacts.isEmpty (Contacts.f_name (Contacts.newContact st))
                || Contacts.isEmpty (Contacts.f_phone (Contacts.newContact st)) = true).
    { destruct H as [-> | ->]; [reflexivity | apply orb_true_r]. }
    rewrite E. cbn. repeat split.
Qed.

Lemma save_then_remove_restores_the_list_witness :
  let st := Contacts.act (Contacts.Type_ {| Contacts.f_name := "Ann";
                                            Contacts.f_phone := "555";
                                            Contacts.f_email := EmptyString;
                                            Contacts.f_relationship := "sister" |})
              (Contacts.mount None) in
  Contacts.f_name (Contacts.newContact st) <> EmptyString /\
  Contacts.f_phone (Contacts.newContact st) <> EmptyString /\
  Contacts.contacts
    (Contacts.removeContact (NilZero.string_of_int (Z.to_int 1700000000000))
       (Contacts.addContact 1700000000000 st))
  = [].
Proof.
  cbv zeta.
  assert (Hn : Contacts.f_name (Contacts.newContact
                 (Contacts.act (Contacts.Type_ {| Contacts.f_name := "Ann";
                                                  Contacts.f_phone := "555";
                                                  Contacts.f_email := EmptyString;
                                                  Contacts.f_relationship := "sister" |})
                    (Contacts.mount None))) <> EmptyString) by discriminate.
  assert (Hp : Contacts.f_phone (Contacts.newContact
                 (Contacts.act (Contacts.Type_ {| Contacts.f_name := "Ann";
                                                  Contacts.f_phone := "555";
                                                  Contacts.f_email := EmptyString;
                                                  Contacts.f_relationship := "sister" |})
                    (Contacts.mount None))) <> EmptyString) by discriminate.
  split; [exact Hn | split; [exact Hp|]].
  exact (proj1 (proj2 (proj1 (save_then_remove_restores_the_list 1700000000000 _) Hn Hp))).
Defined.

(** X15. Contacts saved at different clock readings get different ids. When the
    ids on display are pairwise different, removing by the id of a contact
    on display removes that contact and no other, and the ids stay pairwise
    different through saves at new clock readings and through removals. *)
Theorem contact_ids_tell_contacts_apart :
  (forall (a b : Z) (f g : Contacts.NewContact),
      Contacts.id (Contacts.newContactAt a f)
      = Contacts.id (Contacts.newContactAt b g) -> a = b)
  /\
  (forall (c : Contacts.Contact) (st : Contacts.State),
      NoDup (map Contacts.id (Contacts.contacts st)) ->
      In c (Contacts.contacts st) ->
      let st' := Contacts.removeContact (Contacts.id c) st in
      ~ In c (Contacts.contacts st') /\
      (forall c', In c' (Contacts.contacts st) -> c' <> c ->
                  In c' (Contacts.contacts st')) /\
      S (List.length (Contacts.contacts st')) = List.length (Contacts.contacts st) /\
      NoDup (map Contacts.id (Contacts.contacts st')))
  /\
  (forall (now : Z) (st : Contacts.State),
      NoDup (map Contacts.id (Contacts.contacts st)) ->
      ~ In (NilZero.string_of_int (Z.to_int now))
           (map Contacts.id (Contacts.contacts st)) ->
      NoDup (map Contacts.id (Contacts.contacts (Contacts.addContact now st)))).
Proof.
  split; [|split].
  - intros a b f g H. now apply numberToString_injective.
  - intros c st. cbn [Contacts.removeContact Contacts.contacts Contacts.showToast
                      Contacts.saveContacts].
    generalize (Contacts.contacts st) as l. clear st.
    intros l N I.
    assert (F : forall l, NoDup (map Contacts.id l) ->
                  NoDup (map Contacts.id
                           (filter (fun x => negb (String.eqb (Contacts.id x)
                                                              (Contacts.id c))) l))).
    { clear. induction l as [|x l IH]; intros N; [constructor|].
      cbn in N. inversion N as [|? ? Hx Hl]; subst. cbn [filter].
      destruct (negb _); [|auto]. cbn. constructor; [|auto].
      intros Hin. apply Hx. apply in_map_iff in Hin as (y & Ey & Hy).
      apply filter_In in Hy as [Hy _]. apply in_map_iff. eauto. }
    repeat split.
    + intros Hin. apply filter_In in Hin as [_ Hc].
      now rewrite String.eqb_refl in Hc.
    + intros c' Hc' Hne. apply filter_In. split; [exact Hc'|].
      destruct (String.eqb_spec (Contacts.id c') (Contacts.id c)) as [E|E]; [|reflexivity].
      exfalso. apply Hne. clear F.
      induction l as [|x l IH]; [contradiction|].
      cbn in N. inversion N as [|? ? Hx Hl]; subst.
      destruct I as [-> | I], Hc' as [-> | Hc']; auto.
      * exfalso. apply Hx. rewrite <- E. now apply in_map.
      * exfalso. apply Hx. rewrite E. now apply in_map.
    + clear F. induction l as [|x l IH]; [contradiction|].
      cbn in N. inversion N as [|? ? Hx Hl]; subst. cbn [filter].
      destruct I as [-> | I].
      * rewrite String.eqb_refl. cbn [negb]. cbn [List.length]. f_equal.
        f_equal. apply forallb_filter_id. apply forallb_forall.
        intros y Hy. destruct (String.eqb_spec (Contacts.id y) (Contacts.id c)) as [E|E];
          [|reflexivity].
        exfalso. apply Hx. rewrite <- E. now apply in_map.
      * destruct (String.eqb_spec (Contacts.id x) (Contacts.id c)) as [E|E].
        -- exfalso. apply Hx. rewrite E. now apply in_map.
        -- cbn [negb List.length]. f_equal. now apply IH.
    + now apply F.
  - intros now st N Hfresh. unfold Contacts.addContact.
    destruct (Contacts.isEmpty _ || Contacts.isEmpty _); cbn; [exact N|].
    rewrite map_app. cbn. apply NoDup_app; [exact N | repeat constructor; auto |].
    intros x Hx [<- | []]. now apply Hfresh.
Qed.

Lemma contact_ids_tell_contacts_apart_witness :
  let st := Contacts.addContact 2
              (Contacts.act (Contacts.Type_ {| Contacts.f_name := "Bo";
                                               Contacts.f_phone := "777";
                                               Contacts.f_email := EmptyString;
                                               Contacts.f_relationship := EmptyString |})
                 (Contacts.addContact 1
                    (Contacts.act (Contacts.Type_ {| Contacts.f_name := "Ann";
                                                     Contacts.f_phone := "555";
                                                     Contacts.f_email := EmptyString;
                                                     Contacts.f_relationship := EmptyString |})
                       (Contacts.mount None)))) in
  map Contacts.name (Contacts.contacts st) = ["Ann"; "Bo"]%string /\
  S (List.length (Contacts.contacts (Contacts.removeContact "1" st))) = 2.
Proof.
  cbv zeta. split; [reflexivity|].
  refine (proj1 (proj2 (proj2
            (proj1 (proj2 contact_ids_tell_contacts_apart)
               {| Contacts.id := "1"; Contacts.name := "Ann"; Contacts.phone := "555";
                  Contacts.email := Some EmptyString;
                  Contacts.relationship := EmptyString |} _ _ _)))).
  - repeat constructor; cbn; intuition discriminate.
  - left. reflexivity.
Defined.

(** Two saves within one millisecond share an id, and one removal then
    deletes both contacts. *)
Example same_millisecond_contacts_go_together :
  let typed := {| Contacts.f_name := "Ann"; Contacts.f_phone := "555";
                  Contacts.f_email := EmptyString;
                  Contacts.f_relationship := EmptyString |} in
  let st := Contacts.acts [Contacts.Type_ typed; Contacts.Save 5;
                           Contacts.Type_ typed; Contacts.Save 5]
                          (Contacts.mount None) in
  List.length (Contacts.contacts st) = 2 /\
  Contacts.contacts (Contacts.removeContact "5" st) = [].
Proof. split; reflexivity. Qed.

(** ** The settings page *)

Lemma orElse_twice {A : Type} (p q : option A) (d : A) :
  Settings.orElse q (Settings.orElse p d)
  = Settings.orElse (Settings.orElse (option_map Some q) p) d.
Proof. destruct q, p; reflexivity. Qed.

(** X16. Patches compose as one would spread them: two updates in a row are one
    update with the later patch winning where both speak; an update applied
    twice is the update applied once; the empty patch changes nothing; the
    switches of two methods can be flipped in either order; and flipping a
    switch back restores the settings. *)
Theorem settings_patches_compose :
  (forall (s : DetectionSettings) (p q : Settings.Patch),
      Settings.spread (Settings.spread s p) q
      = Settings.spread s (Settings.thenPatch p q)) /\
  (forall (s : DetectionSettings) (p : Settings.Patch),
      Settings.spread (Settings.spread s p) p = Settings.spread s p) /\
  (forall s : DetectionSettings, Settings.spread s Settings.noPatch = s) /\
  (forall (s : DetectionSettings) (a b : bool),
      Settings.spread (Settings.spread s (Settings.toggleVoice a)) (Settings.toggleMotion b)
      = Settings.spread (Settings.spread s (Settings.toggleMotion b))
                        (Settings.toggleVoice a)) /\
  (forall (s : DetectionSettings) (a : bool),
      Settings.spread (Settings.spread s (Settings.toggleVoice a))
                      (Settings.toggleVoice (voiceEnabled s)) = s).
Proof.
  split; [|split; [|split; [|split]]].
  - intros s p q. unfold Settings.spread, Settings.thenPatch. cbn.
    now rewrite !orElse_twice.
  - intros s p. unfold Settings.spread. cbn.
    destruct p as [[a|] [b|] [c|] [d|] [e|] [f|] [g|]]; reflexivity.
  - intros s. destruct s; reflexivity.
  - intros s a b. reflexivity.
  - intros s a. destruct s; reflexivity.
Qed.

Lemma settings_updates_in_sync (patches : list Settings.Patch) (st : Settings.State) :
  Settings.storage st = Some (Settings.current st) ->
  Settings.parentSettings st = Some (Settings.current st) ->
  Settings.storage (Settings.updates patches st)
  = Some (Settings.current (Settings.updates patches st)) /\
  Settings.parentSettings (Settings.updates patches st)
  = Some (Settings.current (Settings.updates patches st)).
Proof.
  revert st. induction patches as [|p rest IH]; intros st S R; [auto|].
  unfold Settings.updates. cbn [fold_left].
  fold (Settings.updates rest (Settings.updateSettings p st)).
  apply IH; [reflexivity|].
  unfold Settings.parentSettings, Settings.updateSettings. cbn.
  destruct (Settings.reported st) as [|first more]; [reflexivity|].
  cbn [app]. f_equal.
  destruct (more ++ [Settings.spread (Settings.current st) p]) eqn:E.
  - destruct more; discriminate.
  - rewrite <- E. apply last_last.
Qed.

(** X17. After any updates the stored settings and the settings the parent holds
    are the settings on the page. Before the first update of a page that
    found nothing saved, though, the page shows its defaults with all four
    methods on while nothing is stored and the parent has been handed no
    settings, for which the dashboard counts no enabled method; the first
    update brings the two counts together. *)
Theorem settings_reach_the_parent_with_the_first_update
    (saved : option DetectionSettings) (patches : list Settings.Patch) :
  let st := Settings.updates patches (Settings.mount saved) in
  match saved, patches with
  | None, [] =>
      Settings.current st = Settings.defaults /\
      Settings.enabledCount (Settings.current st) = 4 /\
      Settings.storage st = None /\
      Settings.parentSettings st = None /\
      Dashboard.enabledDetectionMethods (Settings.parentSettings st) = 0
  | _, _ =>
      Settings.storage st = Some (Settings.current st) /\
      Settings.parentSettings st = Some (Settings.current st) /\
      Dashboard.enabledDetectionMethods (Settings.parentSettings st)
      = Settings.enabledCount (Settings.current st)
  end.
Proof.
  cbv zeta.
  assert (G : forall st, Settings.storage st = Some (Settings.current st) ->
                 Settings.parentSettings st = Some (Settings.current st) ->
                 forall l,
                 Settings.storage (Settings.updates l st)
                 = Some (Settings.current (Settings.updates l st)) /\
                 Settings.parentSettings (Settings.updates l st)
                 = Some (Settings.current (Settings.updates l st)) /\
                 Dashboard.enabledDetectionMethods
                   (Settings.parentSettings (Settings.updates l st))
                 = Settings.enabledCount (Settings.current (Settings.updates l st))).
  { intros st S R l. destruct (settings_updates_in_sync l st S R) as [S' R'].
    repeat split; auto. rewrite R'.
    apply countEnabled_agrees. }
  destruct saved as [parsed|].
  - destruct patches; apply G; reflexivity.
  - destruct patches as [|p rest].
    + cbn. repeat split.
    + unfold Settings.updates. cbn [fold_left].
      apply (G (Settings.updateSettings p (Settings.mount None))); reflexivity.
Qed.

(** X18. At each of the ten stops of the motion slider the shake threshold is
    the whole number 10 - k, from 9 at the lowest sensitivity down to 0 at
    the highest. At no stop does a sample fire whose three axes are each
    absent, [null] or a zero of either sign. At the highest stop a sample
    fires exactly when the magnitude the handler computes for it (the
    rounded square root of the rounded sum of the rounded squares) is above
    0 and the debounce allows; an acceleration so small that its square
    underflows, such as 2^-600 on one axis, has computed magnitude 0 and
    does not fire even there. *)
Theorem motion_slider_stops_give_whole_thresholds
    (k : Z) (s : DetectionSettings) :
  (1 <= k <= 10)%Z ->
  let s' := Settings.spread s (Settings.motionSlider k) in
  thresholdOf s' = PrimFloat.of_uint63 (Uint63.of_Z (10 - k)) /\
  (forall (h : MotionHandler) (a : Acceleration) (now : Z),
      shakeThreshold h = thresholdOf s' ->
      isZeroAxis (acc_x a) -> isZeroAxis (acc_y a) -> isZeroAxis (acc_z a) ->
      snd (handleMotion h {| acceleration := Some a |} now) = false) /\
  (k = 10%Z ->
   forall (h : MotionHandler) (a : Acceleration) (now : Z),
      shakeThreshold h = thresholdOf s' ->
      (snd (handleMotion h {| acceleration := Some a |} now) = true <->
       PrimFloat.ltb 0 (totalAcceleration a) = true /\
       (2000 < now - lastShakeTime h)%Z)) /\
  (forall (h : MotionHandler) (now : Z),
      shakeThreshold h = thresholdOf s' ->
      totalAcceleration {| acc_x := AxisNumber 0x1p-600%float;
                           acc_y := AxisUndefined; acc_z := AxisNull |} = 0%float /\
      snd (handleMotion h {| acceleration :=
                               Some {| acc_x := AxisNumber 0x1p-600%float;
                                       acc_y := AxisUndefined;
                                       acc_z := AxisNull |} |} now) = false).
Proof.
  intros Hk s'.
  assert (C : (k = 1 \/ k = 2 \/ k = 3 \/ k = 4 \/ k = 5 \/ k = 6 \/ k = 7 \/
               k = 8 \/ k = 9 \/ k = 10)%Z) by lia.
  assert (T : thresholdOf s' = PrimFloat.of_uint63 (Uint63.of_Z (10 - k))).
  { unfold s', thresholdOf, Settings.spread, Settings.motionSlider. cbn.
    repeat (destruct C as [-> | C]; [vm_compute; reflexivity|]).
    subst. vm_compute. reflexivity. }
  assert (Z0 : PrimFloat.ltb (PrimFloat.of_uint63 (Uint63.of_Z (10 - k))) 0 = false).
  { repeat (destruct C as [-> | C]; [reflexivity|]). subst. reflexivity. }
  split; [exact T | split; [|split]].
  - intros h a now Hh Hx Hy Hz. unfold handleMotion. cbn [acceleration].
    rewrite totalAcceleration_norm, Hh, T.
    assert (M : PrimFloat.sqrt (axisOrZero (acc_x a) * axisOrZero (acc_x a)
                                + axisOrZero (acc_y a) * axisOrZero (acc_y a)
                                + axisOrZero (acc_z a) * axisOrZero (acc_z a))%float
                = 0%float).
    { destruct Hx as [-> | ->], Hy as [-> | ->], Hz as [-> | ->]; reflexivity. }
    rewrite M, Z0. reflexivity.
  - intros -> h a now Hh. rewrite handleMotion_fires_iff. cbn [acceleration].
    rewrite Hh, T. split.
    + intros (a' & E & L & D). injection E as <-. auto.
    + intros (L & D). exists a. auto.
  - intros h now Hh. split; [reflexivity|].
    unfold handleMotion. cbn [acceleration].
    change (totalAcceleration _) with 0%float. rewrite Hh, T, Z0. reflexivity.
Qed.

Lemma motion_slider_stops_give_whole_thresholds_witness :
  (1 <= 10 <= 10)%Z /\
  thresholdOf (Settings.spread Settings.defaults (Settings.motionSlider 10)) = 0%float.
Proof.
  assert (H : (1 <= 10 <= 10)%Z) by lia.
  split; [exact H|].
  exact (proj1 (@motion_slider_stops_give_whole_thresholds 10 Settings.defaults H)).
Defined.

(** ** The emergency button *)

Lemma ticks_add (a b : nat) (st : Button.State) :
  Button.ticks (a + b) st = Button.ticks b (Button.ticks a st).
Proof.
  revert st. induction a as [|a IH]; intros st; [reflexivity|]. cbn. apply IH.
Qed.

Lemma ticks_without_interval (n : nat) (st : Button.State) :
  Button.intervals st = [] -> Button.ticks n st = st.
Proof.
  intros H. induction n as [|n IH]; [reflexivity|].
  cbn [Button.ticks]. unfold Button.tick. rewrite H. cbn. exact IH.
Qed.

(** X19. A press on the button while no countdown runs calls [onEmergency]
    exactly once, at the third tick of the interval and not before, however
    many ticks follow: the countdown shows 3, 2, 1 and then nothing, the
    interval is cleared, and one toast goes with the one call. In emergency
    mode a press starts nothing. *)
Theorem button_press_triggers_once_after_three_ticks (k : nat) (st : Button.State) :
  Button.intervals st = [] ->
  let st' := Button.ticks k (Button.handleEmergencyTrigger false st) in
  Button.emergencies st' = Button.emergencies st + (if 3 <=? k then 1 else 0) /\
  Button.countdown st' = (if k <? 3 then Some (3 - Z.of_nat k)%Z else None) /\
  Button.intervals st' = (if k <? 3 then [(3 - Z.of_nat k)%Z] else []) /\
  Button.toasts st'
  = Button.toasts st ++ (if 3 <=? k then [Button.alertSent] else []) /\
  Button.handleEmergencyTrigger true st = st.
Proof.
  intros H st'. subst st'.
  destruct k as [|[|[|k]]].
  - unfold Button.handleEmergencyTrigger. cbn. rewrite H, app_nil_r, Nat.add_0_r. auto.
  - unfold Button.handleEmergencyTrigger. cbn. unfold Button.tick. cbn.
    rewrite H. cbn. rewrite app_nil_r, Nat.add_0_r. auto.
  - unfold Button.handleEmergencyTrigger. cbn. unfold Button.tick. cbn.
    rewrite H. cbn. rewrite app_nil_r, Nat.add_0_r. auto.
  - change (S (S (S k))) with (3 + k). rewrite ticks_add.
    assert (E : Button.ticks 3 (Button.handleEmergencyTrigger false st)
                = {| Button.countdown := None; Button.intervals := [];
                     Button.emergencies := S (Button.emergencies st);
                     Button.toasts := Button.toasts st ++ [Button.alertSent] |}).
    { unfold Button.handleEmergencyTrigger. cbn. unfold Button.tick. cbn.
      rewrite H. cbn. reflexivity. }
    rewrite E, ticks_without_interval by reflexivity. cbn.
    repeat split; auto. lia.
Qed.

Lemma button_press_triggers_once_after_three_ticks_witness :
  Button.intervals Button.idle = [] /\
  Button.emergencies (Button.ticks 7 (Button.handleEmergencyTrigger false Button.idle)) = 1.
Proof.
  split; [reflexivity|].
  exact (proj1 (@button_press_triggers_once_after_three_ticks 7 Button.idle eq_refl)).
Defined.
